(** * Study tracker: a shallow embedding of [src/app.py]

    The application is a set of Flask request handlers over two relational
    tables ([User], [StudySession]) and a signed client-side session cookie.
    Every handler is embedded as a pure function from its inputs (the request
    data, the cookie, the database and, where the handler reads them, the
    clock and the random generator) to a [Result]: the response, what was
    printed, the new cookie and the new database.

    Tables are lists of rows in insertion order.  A query without
    [order_by] returns the rows in table order. *)

From Stdlib Require Import ZArith List String Ascii Bool Lia Permutation.
From Stdlib Require Import Sorted.
From Stdlib Require Import PrimFloat.
Import ListNotations.

Local Open Scope string_scope.
Local Open Scope Z_scope.

(** ** Numbers stored in the [hours] column

    [hours] is a [db.Float] column: the values are Python floats, added with
    [+] starting from the integer [0] (in [sum], in [[0] * 7] and in
    [dict.get(k, 0)]).  The handlers only use [0] and [+], so they are written
    once over this interface; [float_Number] is the instance the program runs
    with (IEEE 754 binary64, as Python's float). *)

Class Number (H : Type) : Type := {
  zero : H;
  add : H -> H -> H;
  storable : H -> bool
}.

(** SQLite stores a NaN as NULL, which the [NOT NULL] column refuses; every
    other float is stored as it is. *)
#[export] Instance float_Number : Number float := {|
  zero := 0%float;
  add := PrimFloat.add;
  storable := fun x => PrimFloat.eqb x x
|}.

(** ** Python built-ins used by the handlers *)

(** [sum(iterable)]: a left fold of [+] starting from [0]. *)
Definition sum {H} `{Number H} (l : list H) : H := fold_left add l zero.

(** [random.randint(a, b)] returns an integer [N] with [a <= N <= b].  The
    generator's state is an input of the model: [entropy] is any integer, and
    it is reduced into the interval. *)
Definition randint (a b entropy : Z) : Z := a + entropy mod (b - a + 1).

(** [str(n)] for an integer: its decimal digits, with a sign when negative. *)
Definition digit (d : Z) : ascii := ascii_of_nat (48 + Z.to_nat d).

Fixpoint str_digits (fuel : nat) (n : Z) (acc : string) : string :=
  match fuel with
  | O => acc
  | S fuel' =>
      let acc' := String (digit (n mod 10)) acc in
      if n <? 10 then acc' else str_digits fuel' (n / 10) acc'
  end.

Definition str (n : Z) : string :=
  if n <? 0
  then String "-"%char (str_digits (S (Z.to_nat (Z.log2 (- n)))) (- n) "")
  else str_digits (S (Z.to_nat (Z.log2 n))) n "".

Definition isdigit (c : ascii) : bool :=
  ((48 <=? nat_of_ascii c) && (nat_of_ascii c <=? 57))%nat.

Fixpoint string_forallb (p : ascii -> bool) (s : string) : bool :=
  match s with
  | EmptyString => true
  | String c s' => p c && string_forallb p s'
  end.

(** The number that a string of decimal digits denotes: what the one-time
    code, a decimal string, is read back as.  [None] when the string is empty
    or has a character that is not a digit. *)
Definition digit_value (c : ascii) : option Z :=
  if isdigit c then Some (Z.of_nat (nat_of_ascii c) - 48) else None.

Fixpoint decimal_digits (s : string) (acc : Z) : option Z :=
  match s with
  | EmptyString => Some acc
  | String c s' =>
      match digit_value c with
      | Some d => decimal_digits s' (10 * acc + d)
      | None => None
      end
  end.

Definition decimal_value (s : string) : option Z :=
  match s with
  | EmptyString => None
  | _ => decimal_digits s 0
  end.

(** [l[i] += v] on a Python list: a negative index counts from the end, and an
    index outside [-len(l) .. len(l) - 1] raises [IndexError] ([None]). *)
Fixpoint list_iadd_nat {H} `{Number H} (l : list H) (n : nat) (v : H)
  : option (list H) :=
  match l, n with
  | [], _ => None
  | x :: r, O => Some (add x v :: r)
  | x :: r, S n' =>
      match list_iadd_nat r n' v with
      | Some r' => Some (x :: r')
      | None => None
      end
  end.

Definition list_iadd {H} `{Number H} (l : list H) (i : Z) (v : H)
  : option (list H) :=
  let len := Z.of_nat (List.length l) in
  if (0 <=? i) && (i <? len) then list_iadd_nat l (Z.to_nat i) v
  else if (- len <=? i) && (i <? 0) then list_iadd_nat l (Z.to_nat (len + i)) v
  else None.

(** A [dict] with string keys: insertion-ordered, one entry per key. *)
Fixpoint dict_get {V} (d : list (string * V)) (k : string) (default : V) : V :=
  match d with
  | [] => default
  | (k', v') :: r => if String.eqb k' k then v' else dict_get r k default
  end.

Fixpoint dict_set {V} (d : list (string * V)) (k : string) (v : V)
  : list (string * V) :=
  match d with
  | [] => [(k, v)]
  | (k', v') :: r =>
      if String.eqb k' k then (k', v) :: r else (k', v') :: dict_set r k v
  end.

(** ** Dates and times

    A naive [datetime] is a count of microseconds since 0001-01-01 00:00:00;
    a [date] is its proleptic Gregorian ordinal ([date.toordinal()], day 1 is
    0001-01-01, a Monday). *)
Module datetime.
Definition t := Z.
Definition us_per_day : Z := 86400000000.

(** [dt.date()], as an ordinal. *)
Definition date (dt : t) : Z := dt / us_per_day + 1.

(** [d.weekday()]: Monday is 0, Sunday is 6. *)
Definition weekday (d : Z) : Z := (d + 6) mod 7.

(** A [date] compared with a [DateTime] column stands for its midnight. *)
Definition midnight (d : Z) : t := (d - 1) * us_per_day.

(** [datetime.combine(d, datetime.max.time())]: 23:59:59.999999 of [d]. *)
Definition combine_max (d : Z) : t := (d - 1) * us_per_day + (us_per_day - 1).
End datetime.

(** ** Database models *)

(** SQLite keeps an [INTEGER] in 64 bits, and its driver refuses to bind a
    Python [int] outside that range ([OverflowError]). *)
Definition sqlite_integer (z : Z) : bool :=
  (- 9223372036854775808 <=? z) && (z <=? 9223372036854775807).

Module User.
Record t : Type := mk {
  id : Z;
  email : string;              (* unique, not nullable *)
  current_otp : option string  (* nullable *)
}.
End User.

Module StudySession.
Record t (H : Type) : Type := mk {
  id : Z;
  subject : string;
  hours : H;
  date : datetime.t;           (* default=datetime.utcnow *)
  user_id : Z;                 (* foreign key to User.id *)
  id_fits : sqlite_integer id = true  (* INTEGER PRIMARY KEY *)
}.
Arguments mk {H} _ _ _ _ _ _.
Arguments id {H} _.
Arguments subject {H} _.
Arguments hours {H} _.
Arguments date {H} _.
Arguments user_id {H} _.
Arguments id_fits {H} _.
End StudySession.

Record Database (H : Type) : Type := mkDatabase {
  users : list User.t;
  study_sessions : list (StudySession.t H)
}.
Arguments mkDatabase {H} _ _.
Arguments users {H} _.
Arguments study_sessions {H} _.

(** [db.create_all()] on a new database: two empty tables. *)
Definition create_all (H : Type) : Database H := mkDatabase [] [].

(** The session cookie: the key the application sets, the key Flask-Login
    sets on [login_user], and the messages queued by [flash]. *)
Record Session : Type := mkSession {
  pending_email : option string;
  logged_in : option Z;
  flashes : list string
}.

Definition new_session : Session := mkSession None None [].

(** The clock and the generator, as read by one request. *)
Record Env : Type := mkEnv {
  utcnow : datetime.t;   (* datetime.utcnow() *)
  now : datetime.t;      (* datetime.now(): local time *)
  entropy : Z            (* what random.randint draws from *)
}.

(** ** Queries *)

(** What [get_or_404] comes to: the row, [abort(404)] when there is none, or
    the driver's [OverflowError] when the key cannot be bound. *)
Inductive Lookup (A : Type) : Type :=
| Found (row : A)
| Missing
| Overflow.
Arguments Found {A} _.
Arguments Missing {A}.
Arguments Overflow {A}.

Section Queries.
Context {H : Type}.

(** [User.query.get(id)]: the row with this primary key. *)
Definition User_get (id : Z) (db : Database H) : option User.t :=
  find (fun u => User.id u =? id) (users db).

(** [User.query.filter_by(email=e).first()].  Flask's [session.get] may hand
    over [None]; the query is then [email IS NULL], which no row satisfies
    since the column is not nullable. *)
Definition email_is (e : option string) (u : User.t) : bool :=
  match e with
  | Some e' => String.eqb (User.email u) e'
  | None => false
  end.

Definition User_filter_by_email (e : option string) (db : Database H)
  : option User.t :=
  find (email_is e) (users db).

(** [StudySession.query.get(id)]: the SELECT by primary key, once the driver
    has bound [id]. *)
Definition StudySession_get (id : Z) (db : Database H)
  : option (StudySession.t H) :=
  find (fun s => StudySession.id s =? id) (study_sessions db).

(** [StudySession.query.get_or_404(id)]. *)
Definition get_or_404 (id : Z) (db : Database H)
  : Lookup (StudySession.t H) :=
  if sqlite_integer id
  then match StudySession_get id db with
       | Some row => Found row
       | None => Missing
       end
  else Overflow.

(** The primary key of an inserted row: one more than the largest in use. *)
Definition next_id (ids : list Z) : Z := 1 + fold_right Z.max 0 ids.

(** [user.current_otp = v; db.session.commit()]: an UPDATE of the row with
    the primary key of [user]. *)
Definition set_current_otp (id : Z) (v : option string) (db : Database H)
  : Database H :=
  mkDatabase
    (map (fun u => if User.id u =? id
                   then User.mk (User.id u) (User.email u) v
                   else u) (users db))
    (study_sessions db).

(** [db.session.add(User(email=e)); db.session.commit()]. *)
Definition add_user (e : string) (db : Database H) : User.t * Database H :=
  let u := User.mk (next_id (map User.id (users db))) e None in
  (u, mkDatabase (users db ++ [u]) (study_sessions db)).

(** [db.session.add(StudySession(...)); db.session.commit()].  The insert
    fails when the next key is not one SQLite can store. *)
Definition add_study_session (subject : string) (hours : H)
    (date : datetime.t) (user_id : Z) (db : Database H)
  : option (Database H) :=
  let id := next_id (map StudySession.id (study_sessions db)) in
  match bool_dec (sqlite_integer id) true with
  | left fits =>
      Some (mkDatabase (users db)
              (study_sessions db
               ++ [StudySession.mk id subject hours date user_id fits]))
  | right _ => None
  end.

(** [db.session.delete(row); db.session.commit()]: a DELETE by primary key. *)
Definition delete_study_session (id : Z) (db : Database H) : Database H :=
  mkDatabase (users db)
    (filter (fun s => negb (StudySession.id s =? id)) (study_sessions db)).

(** [order_by(StudySession.date.desc())]: latest first; rows with the same
    date keep their table order. *)
Fixpoint insert_desc (s : StudySession.t H) (l : list (StudySession.t H))
  : list (StudySession.t H) :=
  match l with
  | [] => [s]
  | x :: r =>
      if StudySession.date x <=? StudySession.date s
      then s :: x :: r
      else x :: insert_desc s r
  end.

Definition order_by_date_desc (l : list (StudySession.t H))
  : list (StudySession.t H) :=
  fold_right insert_desc [] l.

(** Flask-Login's [current_user]: [load_user] on the id kept in the cookie. *)
Definition load_user (user_id : Z) (db : Database H) : option User.t :=
  User_get user_id db.

Definition current_user (sess : Session) (db : Database H) : option User.t :=
  match logged_in sess with
  | Some i => load_user i db
  | None => None
  end.
End Queries.

(** ** Responses *)

Inductive Response (H : Type) : Type :=
| Redirect (target : string)
| RenderLogin
| RenderVerify
| RenderIndex (sessions : list (StudySession.t H)) (total_hours : H)
              (user : User.t)
| RenderStats (user : User.t)
              (daily_labels : list string) (daily_values : list H)
              (weekly_ranges : list (Z * Z)) (weekly_values : list H)
              (subject_labels : list string) (subject_values : list H)
| Unauthorized      (* login_required: sent to the login view *)
| NotFound          (* abort(404) *)
| InternalError.    (* an uncaught exception *)
Arguments Redirect {H} _.
Arguments RenderLogin {H}.
Arguments RenderVerify {H}.
Arguments RenderIndex {H} _ _ _.
Arguments RenderStats {H} _ _ _ _ _ _ _.
Arguments Unauthorized {H}.
Arguments NotFound {H}.
Arguments InternalError {H}.

Record Result (H : Type) : Type := mkResult {
  response : Response H;
  printed : list string;
  session_after : Session;
  db_after : Database H
}.
Arguments mkResult {H} _ _ _ _.
Arguments response {H} _.
Arguments printed {H} _.
Arguments session_after {H} _.
Arguments db_after {H} _.

Inductive Method : Type := GET | POST.

(** ** Routes *)

Section Routes.
Context {H : Type} `{Number H}.

(** [flash(message)]: queued in the cookie. *)
Definition flash (message : string) (sess : Session) : Session :=
  mkSession (pending_email sess) (logged_in sess) (flashes sess ++ [message]).

(** [@login_required]: the view runs for a logged-in user; anyone else is
    sent to the login view and the database is not touched. *)
Definition login_required (sess : Session) (db : Database H)
    (view : User.t -> Result H) : Result H :=
  match current_user sess db with
  | Some user => view user
  | None =>
      mkResult Unauthorized []
               (flash "Please log in to access this page." sess) db
  end.

(** [/login] *)
Definition login (method : Method) (email : string) (env : Env)
    (sess : Session) (db : Database H) : Result H :=
  match method with
  | POST =>
      (* Check if user exists, if not create them (Auto-Register) *)
      let '(user, db1) :=
        match User_filter_by_email (Some email) db with
        | Some user => (user, db)
        | None => add_user email db
        end in
      (* Generate 6-digit OTP *)
      let otp := str (randint 100000 999999 (entropy env)) in
      let db2 := set_current_otp (User.id user) (Some otp) db1 in
      mkResult (Redirect "verify")
               [ "------------------------------------------";
                 "EMAIL SENT TO " ++ email ++ ": YOUR OTP IS " ++ otp;
                 "------------------------------------------" ]%string
               (mkSession (Some email) (logged_in sess) (flashes sess))
               db2
  | GET => mkResult RenderLogin [] sess db
  end.

(** [user.current_otp == entered_otp]: [None] equals no string. *)
Definition otp_eqb (stored : option string) (entered : string) : bool :=
  match stored with
  | Some c => String.eqb c entered
  | None => false
  end.

(** [/verify] *)
Definition verify (method : Method) (entered_otp : string)
    (sess : Session) (db : Database H) : Result H :=
  match method with
  | POST =>
      let email := pending_email sess in
      match User_filter_by_email email db with
      | Some user =>
          if otp_eqb (User.current_otp user) entered_otp
          then
            (* login_user(user); user.current_otp = None; commit *)
            mkResult (Redirect "index") []
                     (mkSession (pending_email sess) (Some (User.id user))
                                (flashes sess))
                     (set_current_otp (User.id user) None db)
          else
            mkResult RenderVerify []
                     (flash "Invalid OTP. Please try again." sess) db
      | None =>
          mkResult RenderVerify []
                   (flash "Invalid OTP. Please try again." sess) db
      end
  | GET => mkResult RenderVerify [] sess db
  end.

(** The listing query of [index]. *)
Definition index_sessions (user : User.t) (db : Database H)
  : list (StudySession.t H) :=
  order_by_date_desc
    (filter (fun s => StudySession.user_id s =? User.id user)
            (study_sessions db)).

(** [/].  [hours] is what the submitted text converts to on its way into the
    [Float] column: [None] when it is not a number.  The commit raises, and
    nothing is stored, when there is no number or the column refuses it. *)
Definition index (method : Method) (subject : string) (hours : option H)
    (env : Env) (sess : Session) (db : Database H) : Result H :=
  login_required sess db (fun user =>
    match method with
    | POST =>
        match hours with
        | Some h =>
            if storable h
            then match add_study_session subject h (utcnow env)
                                         (User.id user) db with
                 | Some db' => mkResult (Redirect "/") [] sess db'
                 | None => mkResult InternalError [] sess db
                 end
            else mkResult InternalError [] sess db
        | None => mkResult InternalError [] sess db
        end
    | GET =>
        let sessions := index_sessions user db in
        let total_hours := sum (map StudySession.hours sessions) in
        mkResult (RenderIndex sessions total_hours user) [] sess db
    end).

(** [/delete/<int:id>] *)
Definition delete (id : Z) (sess : Session) (db : Database H) : Result H :=
  login_required sess db (fun user =>
    match get_or_404 id db with
    | Overflow => mkResult InternalError [] sess db
    | Missing => mkResult NotFound [] sess db
    | Found session_to_delete =>
        if StudySession.user_id session_to_delete =? User.id user
        then mkResult (Redirect "/") [] sess
               (delete_study_session (StudySession.id session_to_delete) db)
        else mkResult (Redirect "/") [] sess db
    end).

(** [/logout] *)
Definition logout (sess : Session) (db : Database H) : Result H :=
  login_required sess db (fun _ =>
    mkResult (Redirect "login") []
             (mkSession (pending_email sess) None (flashes sess)) db).

(** *** [/stats] *)

(** Monday of the week of [today]. *)
Definition start_of_week (env : Env) : Z :=
  let today := datetime.date (now env) in
  today - datetime.weekday today.

(** Chart 1: the rows of the user dated from this Monday onwards. *)
Definition current_week_sessions (user : User.t) (env : Env)
    (db : Database H) : list (StudySession.t H) :=
  filter (fun s => (StudySession.user_id s =? User.id user)
                   && (datetime.midnight (start_of_week env)
                       <=? StudySession.date s))
         (study_sessions db).

(** The loop filling the seven buckets, from [daily_values]. *)
Definition fill_buckets (rows : list (StudySession.t H))
    (daily_values : list H) : option (list H) :=
  fold_left
    (fun acc session =>
       match acc with
       | Some dv =>
           let day_index :=
             datetime.weekday (datetime.date (StudySession.date session)) in
           list_iadd dv day_index (StudySession.hours session)
       | None => None
       end)
    rows (Some daily_values).

Definition daily_values (user : User.t) (env : Env) (db : Database H)
  : option (list H) :=
  fill_buckets (current_week_sessions user env db) (repeat zero 7).

(** Chart 2: the rows of the user in week [i] of the last four (3 is the
    current week), between its Monday 00:00 and its Sunday 23:59:59.999999. *)
Definition week_start (env : Env) (i : Z) : Z :=
  start_of_week env - 7 * (3 - i).

Definition week_end (env : Env) (i : Z) : Z := week_start env i + 6.

Definition week_sessions (user : User.t) (env : Env) (i : Z)
    (db : Database H) : list (StudySession.t H) :=
  filter (fun s => (StudySession.user_id s =? User.id user)
                   && (datetime.midnight (week_start env i)
                       <=? StudySession.date s)
                   && (StudySession.date s
                       <=? datetime.combine_max (week_end env i)))
         (study_sessions db).

Definition weekly_values (user : User.t) (env : Env) (db : Database H)
  : list H :=
  map (fun i => sum (map StudySession.hours (week_sessions user env i db)))
      [0; 1; 2; 3].

(** Chart 3: hours per subject, over all rows of the user. *)
Definition all_sessions (user : User.t) (db : Database H)
  : list (StudySession.t H) :=
  filter (fun s => StudySession.user_id s =? User.id user)
         (study_sessions db).

(** The loop over [all_sessions], from [subject_data]. *)
Definition subject_loop (rows : list (StudySession.t H))
    (subject_data : list (string * H)) : list (string * H) :=
  fold_left
    (fun d s =>
       dict_set d (StudySession.subject s)
                (add (dict_get d (StudySession.subject s) zero)
                     (StudySession.hours s)))
    rows subject_data.

Definition subject_data (user : User.t) (db : Database H)
  : list (string * H) :=
  subject_loop (all_sessions user db) [].

Definition stats (env : Env) (sess : Session) (db : Database H) : Result H :=
  login_required sess db (fun user =>
    match daily_values user env db with
    | None => mkResult InternalError [] sess db
    | Some dv =>
        mkResult
          (RenderStats user
             ["Mon"; "Tue"; "Wed"; "Thu"; "Fri"; "Sat"; "Sun"]%string dv
             (map (fun i => (week_start env i, week_end env i)) [0; 1; 2; 3])
             (weekly_values user env db)
             (map fst (subject_data user db))
             (map snd (subject_data user db)))
          [] sess db
    end).

(** *** Requests

    A request carries the form fields its route reads; a GET ignores them.
    [<int:id>] hands over non-negative integers of any size. *)

Inductive Request : Type :=
| ReqLogin (method : Method) (email : string)
| ReqVerify (method : Method) (otp : string)
| ReqIndex (method : Method) (subject : string) (hours : option H)
| ReqStats
| ReqDelete (id : Z)
| ReqLogout.

Definition handle (env : Env) (req : Request) (sess : Session)
    (db : Database H) : Result H :=
  match req with
  | ReqLogin method email => login method email env sess db
  | ReqVerify method otp => verify method otp sess db
  | ReqIndex method subject hours => index method subject hours env sess db
  | ReqStats => stats env sess db
  | ReqDelete id => delete id sess db
  | ReqLogout => logout sess db
  end.

(** Requests arrive one at a time, each with its own clock reading and the
    cookie its client presents; only the database is shared. *)
Definition run_db (trace : list (Env * Request * Session)) (db : Database H)
  : Database H :=
  fold_left (fun d '(env, req, sess) => db_after (handle env req sess d))
            trace db.
End Routes.
Arguments Request H : clear implicits.

(** ** The session cookie

    Flask keeps the session in a cookie that it signs together with the time
    of signing.  A request opens the cookie it is sent, runs the handler on
    the session inside, and signs a new cookie when the handler has written
    to the session.  A cookie signed more than [permanent_session_lifetime]
    ago (31 days: Flask's default, which the application keeps) is not
    opened: the request is served with an empty session. *)

Record Cookie : Type := mkCookie {
  payload : Session;
  signed_at : Z          (* int(time.time()) at signing *)
}.

Definition permanent_session_lifetime : Z := 31 * 86400.

(** [int(time.time())]: whole seconds since 1970-01-01 00:00:00 UTC, read
    from the same clock as [datetime.utcnow()]. *)
Definition timestamp (env : Env) : Z :=
  utcnow env / 1000000 - 62135596800.

(** [open_session]: the signer refuses a timestamp older than the lifetime,
    and one in the future. *)
Definition open_session (env : Env) (cookie : option Cookie) : Session :=
  match cookie with
  | Some c =>
      let age := timestamp env - signed_at c in
      if (age >? permanent_session_lifetime) || (age <? 0)
      then new_session
      else payload c
  | None => new_session
  end.

(** [not session]: no key is set. *)
Definition session_empty (sess : Session) : bool :=
  match pending_email sess, logged_in sess, flashes sess with
  | None, None, [] => true
  | _, _, _ => false
  end.

(** [session.modified]: whether the request writes to the session.  A login
    attempt sets [pending_email]; a verification logs the user in or queues
    a message; [login_required] queues a message for an anonymous client;
    [logout_user] removes the user's keys.  Nothing else writes. *)
Definition session_modified {H : Type} (req : Request H) (sess : Session)
    (db : Database H) : bool :=
  match req with
  | ReqLogin POST _ => true
  | ReqLogin GET _ => false
  | ReqVerify POST _ => true
  | ReqVerify GET _ => false
  | ReqIndex _ _ _ | ReqStats | ReqDelete _ =>
      match current_user sess db with
      | Some _ => false
      | None => true
      end
  | ReqLogout => true
  end.

(** [save_session]: a session that was written to is signed again, with the
    time of the request (an empty one deletes the cookie); otherwise the
    client keeps the cookie it has. *)
Definition save_session (env : Env) (modified : bool) (sess : Session)
    (cookie : option Cookie) : option Cookie :=
  if modified
  then if session_empty sess then None
       else Some (mkCookie sess (timestamp env))
  else cookie.

(** One request of a client, from the cookie it sends to the cookie it
    holds afterwards. *)
Definition serve {H : Type} `{Number H} (env : Env) (req : Request H)
    (cookie : option Cookie) (db : Database H)
  : Result H * option Cookie :=
  let sess := open_session env cookie in
  let r := handle env req sess db in
  (r, save_session env (session_modified req sess db) (session_after r)
                   cookie).

(** Codes submitted to [/verify] one after the other by one client. *)
Definition verify_attempts {H : Type} (codes : list string)
    (sess : Session) (db : Database H) : Session * Database H :=
  fold_left
    (fun st code =>
       let r := verify POST code (fst st) (snd st) in
       (session_after r, db_after r))
    codes (sess, db).

(** The code stored for the account of email [E]: [None] when there is no
    such account, [Some None] when its code is null. *)
Definition stored_otp {H : Type} (E : string) (db : Database H)
  : option (option string) :=
  option_map User.current_otp (User_filter_by_email (Some E) db).

(** A request is a code event for [E] when it is a login attempt for [E], or
    a verification for pending email [E] that succeeds. *)
Definition code_event {H : Type} (E : string) (req : Request H)
    (sess : Session) (db : Database H) : bool :=
  match req with
  | ReqLogin POST e => String.eqb e E
  | ReqVerify POST otp =>
      match pending_email sess with
      | Some e =>
          String.eqb e E
          && match User_filter_by_email (Some e) db with
             | Some user => otp_eqb (User.current_otp user) otp
             | None => false
             end
      | None => false
      end
  | _ => false
  end.

(** No request of the trace, run from [db], is a code event for [E]. *)
Fixpoint quiet_for {H : Type} `{Number H} (E : string)
    (trace : list (Env * Request H * Session)) (db : Database H) : bool :=
  match trace with
  | [] => true
  | (env, req, sess) :: rest =>
      negb (code_event E req sess db)
      && quiet_for E rest (db_after (handle env req sess db))
  end.

(** *** What the statistics are compared with *)

(** The rows of [user] whose date falls in the current week, Monday to
    Sunday. *)
Definition current_week_records {H : Type} (user : User.t) (env : Env)
    (db : Database H) : list (StudySession.t H) :=
  filter (fun s => (StudySession.user_id s =? User.id user)
                   && (start_of_week env
                       <=? datetime.date (StudySession.date s))
                   && (datetime.date (StudySession.date s)
                       <=? start_of_week env + 6))
         (study_sessions db).

(** The seven buckets add up to the hours of the week's rows. *)
Definition buckets_match_week {H : Type} `{Number H} (user : User.t)
    (env : Env) (db : Database H) : Prop :=
  exists dv,
    daily_values user env db = Some dv
    /\ sum dv = sum (map StudySession.hours (current_week_records user env db)).

(** The per-subject totals add up to the hours of all rows of [user], and to
    the total that [index] displays. *)
Definition subject_totals_match {H : Type} `{Number H} (user : User.t)
    (db : Database H) : Prop :=
  sum (map snd (subject_data user db))
  = sum (map StudySession.hours (all_sessions user db))
  /\ sum (map snd (subject_data user db))
     = sum (map StudySession.hours (index_sessions user db)).

(** *** Invariants of the tables *)

(** The foreign key of [StudySession]: every row's owner is a stored user. *)
Definition owners_exist {H : Type} (db : Database H) : Prop :=
  forall s, In s (study_sessions db) ->
            In (StudySession.user_id s) (map User.id (users db)).

(** Primary keys are distinct in both tables. *)
Definition keys_distinct {H : Type} (db : Database H) : Prop :=
  NoDup (map User.id (users db))
  /\ NoDup (map StudySession.id (study_sessions db)).

(** *** What the weekly chart is compared with *)

(** The rows of [user] dated in week [i] of the chart, by calendar day. *)
Definition week_records {H : Type} (user : User.t) (env : Env) (i : Z)
    (db : Database H) : list (StudySession.t H) :=
  filter (fun s => (StudySession.user_id s =? User.id user)
                   && (week_start env i
                       <=? datetime.date (StudySession.date s))
                   && (datetime.date (StudySession.date s)
                       <=? week_end env i))
         (study_sessions db).

(** The rows of [user] dated in the 28 days that end with the Sunday of the
    current week. *)
Definition four_week_records {H : Type} (user : User.t) (env : Env)
    (db : Database H) : list (StudySession.t H) :=
  filter (fun s => (StudySession.user_id s =? User.id user)
                   && (start_of_week env - 21
                       <=? datetime.date (StudySession.date s))
                   && (datetime.date (StudySession.date s)
                       <=? start_of_week env + 6))
         (study_sessions db).

(** *** Hours that add without rounding

    Binary64 addition rounds, so sums of the same hours taken in different
    groupings can differ.  It is exact on suitable values within a bound:
    [num n] stands for [n] units (whole hours, say), and adding [num m] and
    [num n] gives [num (m + n)] as long as [m + n] does not exceed [bound]. *)
Definition total (ns : list Z) : Z := fold_right Z.add 0 ns.

Definition exact_scale {H : Type} `{Number H} (num : Z -> H) (bound : Z)
  : Prop :=
  num 0 = zero
  /\ forall m n, 0 <= m -> 0 <= n -> m + n <= bound ->
                 add (num m) (num n) = num (m + n).

(** The hours of [rows] are on the scale: row [s] has [units s] units. *)
Definition hours_on_scale {H : Type} (num : Z -> H)
    (units : StudySession.t H -> Z) (rows : list (StudySession.t H)) : Prop :=
  forall s, In s rows ->
            StudySession.hours s = num (units s) /\ 0 <= units s.

(** A dictionary of numbers of the scale, from a dictionary of units. *)
Definition lift {H : Type} (num : Z -> H) (dz : list (string * Z))
  : list (string * H) :=
  map (fun kv => (fst kv, num (snd kv))) dz.

(** The binary64 number of a whole number. *)
Fixpoint float_of_positive (p : positive) : float :=
  match p with
  | xH => 1
  | xO q => 2 * float_of_positive q
  | xI q => 2 * float_of_positive q + 1
  end%float.

Definition whole (n : Z) : float :=
  match n with
  | Z0 => 0
  | Zpos p => float_of_positive p
  | Zneg p => - float_of_positive p
  end%float.

(** The binary64 number of [n] quarters of an hour. *)
Definition quarter (n : Z) : float := (whole n / 4)%float.

(** The whole number from 0 to [bound] that a float equals, 0 if none. *)
Fixpoint whole_value (bound : nat) (x : float) : Z :=
  match bound with
  | O => 0
  | S b =>
      if PrimFloat.eqb x (whole (Z.of_nat bound)) then Z.of_nat bound
      else whole_value b x
  end.

Definition whole_hours (s : StudySession.t float) : Z :=
  whole_value 168 (StudySession.hours s).

(** ** A run of the application, used to instantiate the theorems

    Alice and Bob register and log in; Alice logs two sessions, Bob one. *)
Module Scenario.
Definition alice : string := "alice@example.com".
Definition bob : string := "bob@example.com".

(** 2024-01-01, a Monday, has ordinal 738886. *)
Definition at_ (day hour : Z) : datetime.t :=
  datetime.midnight day + hour * 3600000000.

Definition clock (day hour : Z) (entropy : Z) : Env :=
  mkEnv (at_ day hour) (at_ day hour) entropy.

Definition step (env : Env) (req : Request float)
    (st : Session * Database float) : Session * Database float :=
  let r := handle env req (fst st) (snd st) in
  (session_after r, db_after r).

Definition alice_pending : Session * Database float :=
  step (clock 738886 9 23456) (ReqLogin POST alice)
       (new_session, create_all float).

Definition alice_in : Session * Database float :=
  step (clock 738886 9 0) (ReqIndex POST "math" (Some 2%float))
    (step (clock 738886 9 0) (ReqIndex POST "physics" (Some 1.5%float))
      (step (clock 738886 9 0) (ReqVerify POST "123456") alice_pending)).

Definition bob_in : Session * Database float :=
  step (clock 738887 10 0) (ReqIndex POST "math" (Some 3%float))
    (step (clock 738887 10 0) (ReqVerify POST "100007")
      (step (clock 738887 10 7) (ReqLogin POST bob)
         (new_session, snd alice_in))).

(** The two cookies and the shared database at the end. *)
Definition alice_session : Session := fst alice_in.
Definition bob_session : Session := fst bob_in.
Definition db : Database float := snd bob_in.

Definition alice_user : User.t := User.mk 1 alice None.
Definition bob_user : User.t := User.mk 2 bob None.
Definition bob_record : StudySession.t float :=
  StudySession.mk 3 "math" 3%float (at_ 738887 10) 2 eq_refl.

(** Requests that arrive after Alice's login attempt, over three weeks: Bob
    asks for a code, Alice mistypes hers twice, Alice looks at the login
    page. *)
Definition other_requests : list (Env * Request float * Session) :=
  [ (clock 738887 10 7, ReqLogin POST bob, new_session);
    (clock 738890 12 0, ReqVerify POST "123457", fst alice_pending);
    (clock 738899 12 0, ReqVerify POST "", fst alice_pending);
    (clock 738907 12 0, ReqLogin GET alice, fst alice_pending) ].
End Scenario.

(** Whole hours: Carol logs 2 h on Monday, 1 h and 3 h on Tuesday, and opens
    the statistics on Wednesday. *)
Module WholeHours.
Definition carol : string := "carol@example.com".

Definition carol_in : Session * Database float :=
  Scenario.step (Scenario.clock 738887 18 0)
                (ReqIndex POST "math" (Some 3%float))
    (Scenario.step (Scenario.clock 738887 9 0)
                   (ReqIndex POST "physics" (Some 1%float))
      (Scenario.step (Scenario.clock 738886 9 0)
                     (ReqIndex POST "math" (Some 2%float))
        (Scenario.step (Scenario.clock 738886 8 0) (ReqVerify POST "100042")
          (Scenario.step (Scenario.clock 738886 8 42) (ReqLogin POST carol)
             (new_session, create_all float))))).

Definition session : Session := fst carol_in.
Definition db : Database float := snd carol_in.
Definition carol_user : User.t := User.mk 1 carol None.
Definition wednesday : Env := Scenario.clock 738888 12 0.
End WholeHours.

#[local] Set Warnings "-inexact-float".

(** Fractions of an hour: Dan logs 0.1 h twice on Monday for maths, then
    0.7 h and 0.6 h on Tuesday for physics, and opens the statistics on
    Wednesday. *)
Module Fractions.
Definition dan : string := "dan@example.com".

Definition dan_in : Session * Database float :=
  Scenario.step (Scenario.clock 738887 18 0)
                (ReqIndex POST "physics" (Some 0.6%float))
    (Scenario.step (Scenario.clock 738887 9 0)
                   (ReqIndex POST "physics" (Some 0.7%float))
      (Scenario.step (Scenario.clock 738886 18 0)
                     (ReqIndex POST "math" (Some 0.1%float))
        (Scenario.step (Scenario.clock 738886 9 0)
                       (ReqIndex POST "math" (Some 0.1%float))
          (Scenario.step (Scenario.clock 738886 8 0) (ReqVerify POST "100042")
            (Scenario.step (Scenario.clock 738886 8 42) (ReqLogin POST dan)
               (new_session, create_all float)))))).

Definition session : Session := fst dan_in.
Definition db : Database float := snd dan_in.
Definition dan_user : User.t := User.mk 1 dan None.
Definition wednesday : Env := Scenario.clock 738888 12 0.
End Fractions.

(** A server whose local time is five hours behind UTC: Erin logs 2 h on
    Sunday 2024-01-07 at 20:00 local time, which is Monday 01:00 UTC, and
    opens the statistics an hour later. *)
Module BehindUTC.
Definition erin : string := "erin@example.com".

Definition local (day hour : Z) (entropy : Z) : Env :=
  mkEnv (Scenario.at_ day hour + 5 * 3600000000) (Scenario.at_ day hour)
        entropy.

Definition erin_in : Session * Database float :=
  Scenario.step (local 738892 20 0) (ReqIndex POST "math" (Some 2%float))
    (Scenario.step (local 738892 19 0) (ReqVerify POST "100042")
      (Scenario.step (local 738892 19 42) (ReqLogin POST erin)
         (new_session, create_all float))).

Definition session : Session := fst erin_in.
Definition db : Database float := snd erin_in.
Definition erin_user : User.t := User.mk 1 erin None.
Definition sunday_evening : Env := local 738892 21 0.
End BehindUTC.

(** * Properties *)


(** ** Built-ins *)

Example str_examples :
  str 0 = "0" /\ str 7 = "7" /\ str 100000 = "100000"
  /\ str 123456 = "123456" /\ str 999999 = "999999"
  /\ str 1000000 = "1000000" /\ str (-45) = "-45".
Proof. vm_compute. repeat split. Qed.

(** 2024-01-01 has ordinal 738886 and is a Monday; 2024-01-07 is the Sunday
    of the same week. *)
Example weekday_examples :
  datetime.weekday 1 = 0
  /\ datetime.weekday 738886 = 0
  /\ datetime.weekday 738892 = 6
  /\ datetime.date (datetime.combine_max 738892) = 738892
  /\ datetime.date (datetime.midnight 738893) = 738893.
Proof. vm_compute. repeat split. Qed.

Lemma randint_range (a b entropy : Z) :
  a <= b -> a <= randint a b entropy <= b.
Proof.
  intros Hab. unfold randint.
  pose proof (Z.mod_pos_bound entropy (b - a + 1)). lia.
Qed.

(** Every value of the interval can be drawn. *)
Lemma randint_onto (a b n : Z) :
  a <= n <= b -> randint a b (n - a) = n.
Proof.
  intros Hn. unfold randint. rewrite Z.mod_small by lia. lia.
Qed.

Lemma digit_isdigit (d : Z) : 0 <= d < 10 -> isdigit (digit d) = true.
Proof.
  intros Hd.
  assert (Hcases : d = 0 \/ d = 1 \/ d = 2 \/ d = 3 \/ d = 4 \/ d = 5
                   \/ d = 6 \/ d = 7 \/ d = 8 \/ d = 9) by lia.
  repeat (destruct Hcases as [-> | Hcases]; [reflexivity | ]).
  subst d. reflexivity.
Qed.

Lemma str_digits_step (fuel : nat) (n : Z) (acc : string) :
  10 <= n ->
  str_digits (S fuel) n acc
  = str_digits fuel (n / 10) (String (digit (n mod 10)) acc).
Proof.
  intros Hn. simpl. destruct (n <? 10) eqn:E; [apply Z.ltb_lt in E; lia | ].
  reflexivity.
Qed.

Lemma str_digits_last (fuel : nat) (n : Z) (acc : string) :
  n < 10 -> str_digits (S fuel) n acc = String (digit (n mod 10)) acc.
Proof.
  intros Hn. simpl. destruct (n <? 10) eqn:E; [reflexivity | ].
  apply Z.ltb_ge in E. lia.
Qed.

(** The six digits of a number between 100000 and 999999. *)
Lemma str_six_digits (n : Z) :
  100000 <= n <= 999999 ->
  str n =
  String (digit (n / 100000 mod 10))
   (String (digit (n / 10000 mod 10))
    (String (digit (n / 1000 mod 10))
     (String (digit (n / 100 mod 10))
      (String (digit (n / 10 mod 10))
       (String (digit (n mod 10)) ""))))).
Proof.
  intros Hn. unfold str.
  destruct (n <? 0) eqn:E; [apply Z.ltb_lt in E; lia | clear E].
  assert (Hlog : 16 <= Z.log2 n).
  { change 16 with (Z.log2 65536). apply Z.log2_le_mono. lia. }
  assert (Hfuel : exists k, Z.to_nat (Z.log2 n) = (5 + k)%nat).
  { exists (Z.to_nat (Z.log2 n) - 5)%nat. lia. }
  destruct Hfuel as [k ->].
  assert (Hd : forall a b, 0 < a -> 0 < b -> n / a / b = n / (a * b)).
  { intros a b Ha Hb. rewrite Z.div_div by lia. reflexivity. }
  assert (H1 : 10000 <= n / 10 <= 99999)
    by (Z.to_euclidean_division_equations; lia).
  assert (H2 : 1000 <= n / 100 <= 9999)
    by (Z.to_euclidean_division_equations; lia).
  assert (H3 : 100 <= n / 1000 <= 999)
    by (Z.to_euclidean_division_equations; lia).
  assert (H4 : 10 <= n / 10000 <= 99)
    by (Z.to_euclidean_division_equations; lia).
  assert (H5 : 1 <= n / 100000 <= 9)
    by (Z.to_euclidean_division_equations; lia).
  change (S (5 + k)) with (S (S (S (S (S (S k)))))).
  rewrite str_digits_step by lia.
  rewrite str_digits_step by lia.
  rewrite (Hd 10 10) by lia.
  rewrite str_digits_step by (simpl; lia).
  rewrite (Hd (10 * 10) 10) by lia.
  rewrite str_digits_step by (simpl; lia).
  rewrite (Hd (10 * 10 * 10) 10) by lia.
  rewrite str_digits_step by (simpl; lia).
  rewrite (Hd (10 * 10 * 10 * 10) 10) by lia.
  rewrite str_digits_last by (simpl; lia).
  reflexivity.
Qed.

Lemma str_six_digits_length (n : Z) :
  100000 <= n <= 999999 -> String.length (str n) = 6%nat.
Proof. intros Hn. rewrite str_six_digits by assumption. reflexivity. Qed.

Lemma str_six_digits_numeric (n : Z) :
  100000 <= n <= 999999 -> string_forallb isdigit (str n) = true.
Proof.
  intros Hn. rewrite str_six_digits by assumption. cbn [string_forallb].
  rewrite !digit_isdigit by (apply Z.mod_pos_bound; lia).
  reflexivity.
Qed.

(** ** Lists and queries *)

Section QueryFacts.
Context {H : Type}.

Lemma insert_desc_perm (s : StudySession.t H) (l : list (StudySession.t H)) :
  Permutation (insert_desc s l) (s :: l).
Proof.
  induction l as [| x r IH]; simpl.
  - apply Permutation_refl.
  - destruct (StudySession.date x <=? StudySession.date s).
    + apply Permutation_refl.
    + eapply Permutation_trans; [apply perm_skip, IH | apply perm_swap].
Qed.

Lemma order_by_date_desc_perm (l : list (StudySession.t H)) :
  Permutation (order_by_date_desc l) l.
Proof.
  induction l as [| x r IH]; simpl.
  - apply perm_nil.
  - eapply Permutation_trans; [apply insert_desc_perm | apply perm_skip, IH].
Qed.

Lemma order_by_date_desc_In (s : StudySession.t H) l :
  In s (order_by_date_desc l) <-> In s l.
Proof.
  split; apply Permutation_in;
    [ | apply Permutation_sym ]; apply order_by_date_desc_perm.
Qed.

(** With a primary key, [get] on the id of a stored row returns that row. *)
Lemma StudySession_get_In (R : StudySession.t H) (db : Database H) :
  NoDup (map StudySession.id (study_sessions db)) ->
  In R (study_sessions db) ->
  StudySession_get (StudySession.id R) db = Some R.
Proof.
  unfold StudySession_get. induction (study_sessions db) as [| x r IH];
    simpl; intros Hnd Hin; [contradiction | ].
  inversion Hnd as [| ? ? Hx Hr]; subst.
  destruct Hin as [-> | Hin].
  - rewrite Z.eqb_refl. reflexivity.
  - destruct (StudySession.id x =? StudySession.id R) eqn:E.
    + apply Z.eqb_eq in E. exfalso. apply Hx. rewrite E.
      apply in_map. assumption.
    + apply IH; assumption.
Qed.

Lemma StudySession_get_missing (id : Z) (db : Database H) :
  (forall s, In s (study_sessions db) -> StudySession.id s <> id) ->
  StudySession_get id db = None.
Proof.
  intros Hno. unfold StudySession_get.
  destruct (find _ _) as [s |] eqn:E; [ | reflexivity].
  apply find_some in E. destruct E as [Hin Hid].
  apply Z.eqb_eq in Hid. exfalso. exact (Hno s Hin Hid).
Qed.

Lemma get_or_404_In (R : StudySession.t H) (db : Database H) :
  NoDup (map StudySession.id (study_sessions db)) ->
  In R (study_sessions db) ->
  get_or_404 (StudySession.id R) db = Found R.
Proof.
  intros Hpk HR. unfold get_or_404.
  rewrite (StudySession.id_fits R), (StudySession_get_In R db Hpk HR).
  reflexivity.
Qed.

Lemma get_or_404_missing (id : Z) (db : Database H) :
  sqlite_integer id = true ->
  (forall s, In s (study_sessions db) -> StudySession.id s <> id) ->
  get_or_404 id db = Missing.
Proof.
  intros Hfits Hno. unfold get_or_404.
  rewrite Hfits, (StudySession_get_missing id db Hno). reflexivity.
Qed.

Lemma get_or_404_Found (id : Z) (db : Database H)
    (row : StudySession.t H) :
  get_or_404 id db = Found row ->
  In row (study_sessions db) /\ StudySession.id row = id.
Proof.
  unfold get_or_404, StudySession_get.
  destruct (sqlite_integer id); [ | discriminate].
  destruct (find _ _) as [s |] eqn:Hf; [ | discriminate].
  intros [= <-]. apply find_some in Hf. destruct Hf as [Hin Hid].
  apply Z.eqb_eq in Hid. auto.
Qed.

Lemma sqlite_integer_range (z : Z) :
  sqlite_integer z = true
  <-> - 9223372036854775808 <= z <= 9223372036854775807.
Proof.
  unfold sqlite_integer. rewrite andb_true_iff, !Z.leb_le. reflexivity.
Qed.

Lemma User_filter_by_email_none (db : Database H) :
  User_filter_by_email None db = None.
Proof.
  unfold User_filter_by_email. induction (users db); simpl; auto.
Qed.

Lemma User_filter_by_email_missing (e : string) (db : Database H) :
  (forall u, In u (users db) -> User.email u <> e) ->
  User_filter_by_email (Some e) db = None.
Proof.
  intros Hno. unfold User_filter_by_email.
  destruct (find _ _) as [u |] eqn:E; [ | reflexivity].
  apply find_some in E. destruct E as [Hin He]. simpl in He.
  apply String.eqb_eq in He. exfalso. exact (Hno u Hin He).
Qed.
End QueryFacts.

Example scenario_users :
  current_user Scenario.alice_session Scenario.db = Some Scenario.alice_user
  /\ current_user Scenario.bob_session Scenario.db = Some Scenario.bob_user
  /\ In Scenario.bob_record (study_sessions Scenario.db)
  /\ List.length (study_sessions Scenario.db) = 3%nat.
Proof. vm_compute. intuition. Qed.

(** ** Listing and deleting records *)

(** C1: for a logged-in account A, the listing rendered by the index
    operation consists of exactly the stored study records owned by A; it
    never contains a record owned by another account, and it is the same
    whatever records the other accounts hold. *)
Theorem index_lists_only_own_records
    (H : Type) (N : Number H) (env : Env) (sess : Session) (db : Database H)
    (A : User.t) (subject : string) (hours : option H) :
  current_user sess db = Some A ->
  exists sessions total_hours,
    index GET subject hours env sess db
    = mkResult (RenderIndex sessions total_hours A) [] sess db
    /\ (forall s, In s sessions -> StudySession.user_id s = User.id A)
    /\ (forall s, In s sessions <->
                  In s (study_sessions db)
                  /\ StudySession.user_id s = User.id A)
    /\ (forall db2 : Database H,
          filter (fun s => StudySession.user_id s =? User.id A)
                 (study_sessions db2)
          = filter (fun s => StudySession.user_id s =? User.id A)
                   (study_sessions db) ->
          index_sessions A db2 = sessions).
Proof.
  intros Hcu.
  exists (index_sessions A db),
         (sum (map StudySession.hours (index_sessions A db))).
  assert (Hmem : forall s, In s (index_sessions A db) <->
                           In s (study_sessions db)
                           /\ StudySession.user_id s = User.id A).
  { intros s. unfold index_sessions.
    rewrite order_by_date_desc_In, filter_In, Z.eqb_eq. reflexivity. }
  split; [ | split; [ | split]].
  - unfold index, login_required. rewrite Hcu. reflexivity.
  - intros s Hs. apply Hmem in Hs. apply Hs.
  - exact Hmem.
  - intros db2 Hsame. unfold index_sessions. rewrite Hsame. reflexivity.
Qed.

Lemma index_lists_only_own_records_witness :
  exists sessions total_hours,
    index GET "" None (Scenario.clock 738888 8 0)
          Scenario.alice_session Scenario.db
    = mkResult (RenderIndex sessions total_hours Scenario.alice_user) []
               Scenario.alice_session Scenario.db
    /\ List.length sessions = 2%nat
    /\ (forall s, In s sessions -> StudySession.user_id s = 1).
Proof.
  destruct (index_lists_only_own_records float float_Number
              (Scenario.clock 738888 8 0) Scenario.alice_session Scenario.db
              Scenario.alice_user "" None eq_refl)
    as (sessions & total_hours & Hpage & Hown & _ & Hsame).
  exists sessions, total_hours.
  split; [exact Hpage | split; [ | exact Hown]].
  rewrite <- (Hsame Scenario.db eq_refl). reflexivity.
Defined.

(** C2: when a logged-in account A invokes delete on the id of a stored
    record R that A does not own, the stored state is left exactly as it was:
    R is kept and no other row changes. *)
Theorem delete_foreign_record_is_noop
    (H : Type) (N : Number H) (sess : Session) (db : Database H)
    (A : User.t) (R : StudySession.t H) :
  NoDup (map StudySession.id (study_sessions db)) ->
  current_user sess db = Some A ->
  In R (study_sessions db) ->
  StudySession.user_id R <> User.id A ->
  delete (StudySession.id R) sess db = mkResult (Redirect "/") [] sess db.
Proof.
  intros Hpk Hcu HR Hown.
  unfold delete, login_required. rewrite Hcu.
  rewrite (get_or_404_In R db Hpk HR).
  destruct (StudySession.user_id R =? User.id A) eqn:E.
  - apply Z.eqb_eq in E. contradiction.
  - reflexivity.
Qed.

Lemma delete_foreign_record_is_noop_witness :
  delete 3 Scenario.alice_session Scenario.db
  = mkResult (Redirect "/") [] Scenario.alice_session Scenario.db.
Proof.
  apply (delete_foreign_record_is_noop float float_Number Scenario.alice_session
           Scenario.db Scenario.alice_user Scenario.bob_record).
  - vm_compute. repeat constructor; simpl; intuition discriminate.
  - reflexivity.
  - vm_compute. right. right. left. reflexivity.
  - vm_compute. discriminate.
Defined.

(** C6, as the code has it: when a logged-in account invokes delete on an id
    that SQLite can hold (at most 2^63 - 1) and that no stored record has,
    the response is not-found and the stored state is unchanged; for an id
    beyond that range the lookup raises, the response is a server error and
    the stored state is unchanged as well. *)
Theorem delete_missing_record_not_found
    (H : Type) (N : Number H) (sess : Session) (db : Database H)
    (A : User.t) (id : Z) :
  current_user sess db = Some A ->
  (forall s, In s (study_sessions db) -> StudySession.id s <> id) ->
  (- 9223372036854775808 <= id <= 9223372036854775807 ->
   delete id sess db = mkResult NotFound [] sess db)
  /\ (9223372036854775807 < id ->
      delete id sess db = mkResult InternalError [] sess db).
Proof.
  intros Hcu Hno. unfold delete, login_required. rewrite Hcu. split.
  - intros Hid. apply sqlite_integer_range in Hid.
    rewrite (get_or_404_missing id db Hid Hno). reflexivity.
  - intros Hid. unfold get_or_404.
    replace (sqlite_integer id) with false; [reflexivity | ].
    symmetry. apply not_true_is_false. rewrite sqlite_integer_range. lia.
Qed.

Lemma delete_missing_record_not_found_witness :
  delete 42 Scenario.alice_session Scenario.db
  = mkResult NotFound [] Scenario.alice_session Scenario.db.
Proof.
  apply (delete_missing_record_not_found float float_Number
           Scenario.alice_session Scenario.db Scenario.alice_user 42).
  - reflexivity.
  - intros s Hs. vm_compute in Hs.
    destruct Hs as [<- | [<- | [<- | []]]]; simpl; discriminate.
  - lia.
Defined.

(** C6 fails as stated: the id 2^63 is accepted by the route and belongs to
    no stored record, and the answer is a server error, not not-found. *)
Lemma delete_missing_record_not_found_counterexample :
  current_user Scenario.alice_session Scenario.db = Some Scenario.alice_user
  /\ (forall s, In s (study_sessions Scenario.db) ->
                StudySession.id s <> 9223372036854775808)
  /\ delete 9223372036854775808 Scenario.alice_session Scenario.db
     = mkResult InternalError [] Scenario.alice_session Scenario.db
  /\ response (delete 9223372036854775808 Scenario.alice_session Scenario.db)
     <> NotFound.
Proof.
  split; [vm_compute; reflexivity | split; [ | split]].
  - intros s Hs. vm_compute in Hs.
    destruct Hs as [<- | [<- | [<- | []]]]; simpl; discriminate.
  - vm_compute. reflexivity.
  - vm_compute. discriminate.
Qed.

(** ** Accounts *)

Section UserFacts.
Context {H : Type}.

Lemma set_current_otp_emails (i : Z) (v : option string) (db : Database H) :
  map User.email (users (set_current_otp i v db)) = map User.email (users db).
Proof.
  unfold set_current_otp. simpl. rewrite map_map. apply map_ext.
  intros u. destruct (User.id u =? i); reflexivity.
Qed.

Lemma set_current_otp_ids (i : Z) (v : option string) (db : Database H) :
  map User.id (users (set_current_otp i v db)) = map User.id (users db).
Proof.
  unfold set_current_otp. simpl. rewrite map_map. apply map_ext.
  intros u. destruct (User.id u =? i); reflexivity.
Qed.

Lemma set_current_otp_study_sessions (i : Z) v (db : Database H) :
  study_sessions (set_current_otp i v db) = study_sessions db.
Proof. reflexivity. Qed.

Lemma next_id_above (ids : list Z) (i : Z) : In i ids -> i < next_id ids.
Proof.
  unfold next_id. induction ids as [| x r IH]; [contradiction | ].
  cbn [fold_right]. intros [-> | Hin]; [ | specialize (IH Hin)]; lia.
Qed.

Lemma next_id_fresh (ids : list Z) : ~ In (next_id ids) ids.
Proof. intros Hin. apply next_id_above in Hin. lia. Qed.

Lemma find_email_In (e : string) (us : list User.t) (u : User.t) :
  find (email_is (Some e)) us = Some u -> In u us /\ User.email u = e.
Proof.
  intros Hf. apply find_some in Hf. destruct Hf as [Hin He].
  split; [assumption | apply String.eqb_eq; exact He].
Qed.

Lemma find_email_None (e : string) (us : list User.t) :
  find (email_is (Some e)) us = None <-> ~ In e (map User.email us).
Proof.
  induction us as [| x r IH]; simpl.
  - intuition.
  - destruct (String.eqb (User.email x) e) eqn:E.
    + apply String.eqb_eq in E. split; [discriminate | intuition].
    + apply String.eqb_neq in E. rewrite IH. intuition.
Qed.

(** Writing the code of the row found for [e] is seen by the next lookup. *)
Lemma find_email_set_same (e : string) (us : list User.t) (u : User.t) v :
  find (email_is (Some e)) us = Some u ->
  find (email_is (Some e))
       (map (fun x => if User.id x =? User.id u
                      then User.mk (User.id x) (User.email x) v else x) us)
  = Some (User.mk (User.id u) (User.email u) v).
Proof.
  induction us as [| x r IH]; simpl; [discriminate | ].
  destruct (String.eqb (User.email x) e) eqn:E.
  - intros [= ->]. rewrite Z.eqb_refl. simpl. rewrite E. reflexivity.
  - intros Hf. destruct (User.id x =? User.id u); simpl; rewrite E; auto.
Qed.

(** Writing the code of another row is not. *)
Lemma find_email_set_other (e : string) (us : list User.t) (i : Z) v :
  (forall u, find (email_is (Some e)) us = Some u -> User.id u <> i) ->
  find (email_is (Some e))
       (map (fun x => if User.id x =? i
                      then User.mk (User.id x) (User.email x) v else x) us)
  = find (email_is (Some e)) us.
Proof.
  induction us as [| x r IH]; simpl; [reflexivity | ].
  destruct (String.eqb (User.email x) e) eqn:E; intros Hne.
  - destruct (User.id x =? i) eqn:Ei.
    + apply Z.eqb_eq in Ei. exfalso. exact (Hne x eq_refl Ei).
    + simpl. rewrite E. reflexivity.
  - destruct (User.id x =? i); simpl; rewrite E; apply IH; assumption.
Qed.

Lemma find_email_app_new (e e' : string) (us : list User.t) (u : User.t) :
  User.email u = e' ->
  find (email_is (Some e)) (us ++ [u])%list
  = match find (email_is (Some e)) us with
    | Some x => Some x
    | None => if String.eqb e' e then Some u else None
    end.
Proof.
  intros <-. induction us as [| x r IH]; simpl.
  - destruct (String.eqb (User.email u) e); reflexivity.
  - destruct (String.eqb (User.email x) e); [reflexivity | exact IH].
Qed.

(** Two stored users with the same primary key are the same row. *)
Lemma users_same_id (us : list User.t) (u u' : User.t) :
  NoDup (map User.id us) -> In u us -> In u' us ->
  User.id u = User.id u' -> u = u'.
Proof.
  induction us as [| x r IH]; simpl; [contradiction | ].
  intros Hnd Hu Hu' Hid. inversion Hnd as [| ? ? Hx Hr]; subst.
  destruct Hu as [-> | Hu], Hu' as [-> | Hu'].
  - reflexivity.
  - exfalso. apply Hx. rewrite Hid. apply in_map. assumption.
  - exfalso. apply Hx. rewrite <- Hid. apply in_map. assumption.
  - apply IH; assumption.
Qed.
End UserFacts.

(** ** What each route does to the [User] table *)

Section RouteFacts.
Context {H : Type} `{Number H}.

(** An insert that succeeds appends one row with the next key. *)
Lemma add_study_session_Some (subject : string) (h : H) (date : datetime.t)
    (user_id : Z) (db db' : Database H) :
  add_study_session subject h date user_id db = Some db' ->
  users db' = users db
  /\ exists row,
       study_sessions db' = (study_sessions db ++ [row])%list
       /\ StudySession.id row
          = next_id (map StudySession.id (study_sessions db))
       /\ StudySession.subject row = subject
       /\ StudySession.hours row = h
       /\ StudySession.date row = date
       /\ StudySession.user_id row = user_id.
Proof.
  unfold add_study_session.
  destruct (bool_dec _ true) as [fits | _]; [ | discriminate].
  intros [= <-]. split; [reflexivity | ].
  eexists. split; [reflexivity | ]. cbn. auto.
Qed.

(** It succeeds when the next key is one SQLite can store. *)
Lemma add_study_session_fits (subject : string) (h : H) (date : datetime.t)
    (user_id : Z) (db : Database H) :
  sqlite_integer (next_id (map StudySession.id (study_sessions db))) = true ->
  exists db', add_study_session subject h date user_id db = Some db'.
Proof.
  intros Hfits. unfold add_study_session.
  destruct (bool_dec _ true) as [fits | Hno]; [eauto | contradiction].
Qed.


Lemma login_post_existing (e : string) (env : Env) (sess : Session)
    (db : Database H) (u : User.t) :
  User_filter_by_email (Some e) db = Some u ->
  db_after (login POST e env sess db)
  = set_current_otp (User.id u)
      (Some (str (randint 100000 999999 (entropy env)))) db.
Proof. intros Hf. unfold login. rewrite Hf. reflexivity. Qed.

Lemma login_post_new (e : string) (env : Env) (sess : Session)
    (db : Database H) :
  User_filter_by_email (Some e) db = None ->
  db_after (login POST e env sess db)
  = set_current_otp (next_id (map User.id (users db)))
      (Some (str (randint 100000 999999 (entropy env))))
      (mkDatabase
         (users db ++ [User.mk (next_id (map User.id (users db))) e None])
         (study_sessions db)).
Proof. intros Hf. unfold login. rewrite Hf. reflexivity. Qed.

Lemma verify_post_db (otp : string) (sess : Session) (db : Database H) :
  db_after (verify POST otp sess db)
  = match User_filter_by_email (pending_email sess) db with
    | Some user =>
        if otp_eqb (User.current_otp user) otp
        then set_current_otp (User.id user) None db
        else db
    | None => db
    end.
Proof.
  unfold verify. destruct (User_filter_by_email _ _) as [user |];
    [destruct (otp_eqb _ _) | ]; reflexivity.
Qed.

Lemma login_required_users (sess : Session) (db : Database H)
    (view : User.t -> Result H) :
  (forall user, users (db_after (view user)) = users db) ->
  users (db_after (login_required sess db view)) = users db.
Proof.
  intros Hview. unfold login_required.
  destruct (current_user sess db); [apply Hview | reflexivity].
Qed.

Lemma index_users (method : Method) (subject : string) (hours : option H)
    (env : Env) (sess : Session) (db : Database H) :
  users (db_after (index method subject hours env sess db)) = users db.
Proof.
  unfold index. apply login_required_users. intros user.
  destruct method; [reflexivity | ].
  destruct hours as [h |]; [ | reflexivity].
  destruct (storable h); [ | reflexivity].
  destruct (add_study_session _ _ _ _ _) as [db' |] eqn:Hadd;
    [ | reflexivity].
  apply (add_study_session_Some _ _ _ _ _ _ Hadd).
Qed.

(** Only [/login] and [/verify] write to the [User] table. *)
Lemma handle_users_unchanged (env : Env) (req : Request H)
    (sess : Session) (db : Database H) :
  match req with
  | ReqLogin POST _ | ReqVerify POST _ => False
  | _ => True
  end ->
  users (db_after (handle env req sess db)) = users db.
Proof.
  destruct req as [[|] e | [|] otp | m subject hours | | id |];
    cbn [handle]; intros Hreq; try contradiction; try reflexivity.
  - apply index_users.
  - unfold stats. apply login_required_users. intros user.
    destruct (daily_values user env db); reflexivity.
  - unfold delete. apply login_required_users. intros user.
    destruct (get_or_404 id db) as [s | |]; try reflexivity.
    destruct (StudySession.user_id s =? User.id user); reflexivity.
  - unfold logout. apply login_required_users. intros user. reflexivity.
Qed.

(** Every request keeps the accounts it finds, in order, and adds at most
    one: a login attempt for an email that has none. *)
Lemma handle_accounts (env : Env) (req : Request H)
    (sess : Session) (db : Database H) :
  let db' := db_after (handle env req sess db) in
  (map User.id (users db') = map User.id (users db)
   /\ map User.email (users db') = map User.email (users db))
  \/ (exists e method,
        req = ReqLogin method e
        /\ ~ In e (map User.email (users db))
        /\ map User.id (users db')
           = (map User.id (users db)
              ++ [next_id (map User.id (users db))])%list
        /\ map User.email (users db')
           = (map User.email (users db) ++ [e])%list).
Proof.
  intros db'. subst db'.
  destruct req as [[|] e | [|] otp | m subject hours | | id |];
    try (left; rewrite handle_users_unchanged by exact I; split; reflexivity).
  - (* login POST *)
    cbn [handle]. destruct (User_filter_by_email (Some e) db) as [u |] eqn:Hf.
    + left. rewrite (login_post_existing e env sess db u Hf).
      rewrite set_current_otp_ids, set_current_otp_emails. auto.
    + right. exists e, POST. rewrite (login_post_new e env sess db Hf).
      rewrite set_current_otp_ids, set_current_otp_emails. simpl.
      rewrite !map_app. simpl.
      repeat split. apply find_email_None. exact Hf.
  - (* verify POST *)
    left. cbn [handle]. rewrite verify_post_db.
    destruct (User_filter_by_email _ _) as [user |]; [ | auto].
    destruct (otp_eqb _ _); [ | auto].
    rewrite set_current_otp_ids, set_current_otp_emails. auto.
Qed.

Lemma NoDup_snoc {A : Type} (l : list A) (x : A) :
  NoDup l -> ~ In x l -> NoDup (l ++ [x])%list.
Proof.
  intros Hnd Hx. apply (Permutation_NoDup (Permutation_cons_append l x)).
  constructor; assumption.
Qed.

(** Primary keys of [User] stay distinct. *)
Lemma handle_user_ids_NoDup (env : Env) (req : Request H)
    (sess : Session) (db : Database H) :
  NoDup (map User.id (users db)) ->
  NoDup (map User.id (users (db_after (handle env req sess db)))).
Proof.
  intros Hnd.
  destruct (handle_accounts env req sess db)
    as [[-> _] | (e & m & _ & _ & -> & _)]; [assumption | ].
  apply NoDup_snoc; [assumption | apply next_id_fresh].
Qed.

(** Emails of [User] stay distinct. *)
Lemma handle_emails_NoDup (env : Env) (req : Request H)
    (sess : Session) (db : Database H) :
  NoDup (map User.email (users db)) ->
  NoDup (map User.email (users (db_after (handle env req sess db)))).
Proof.
  intros Hnd.
  destruct (handle_accounts env req sess db)
    as [[_ ->] | (e & m & _ & Hnew & _ & ->)]; [assumption | ].
  apply NoDup_snoc; assumption.
Qed.

Lemma run_db_cons (env : Env) (req : Request H) (sess : Session)
    (rest : list (Env * Request H * Session)) (db : Database H) :
  run_db ((env, req, sess) :: rest) db
  = run_db rest (db_after (handle env req sess db)).
Proof. reflexivity. Qed.

Lemma run_db_invariant (P : Database H -> Prop) :
  (forall env req sess db, P db -> P (db_after (handle env req sess db))) ->
  forall trace db, P db -> P (run_db trace db).
Proof.
  intros Hstep trace. induction trace as [| [[env req] sess] rest IH];
    intros db Hdb; [exact Hdb | ].
  rewrite run_db_cons. apply IH, Hstep, Hdb.
Qed.
End RouteFacts.

(** ** One-time codes *)

Lemma verify_wrong_code
    {H : Type} (sess : Session) (db : Database H)
    (E : string) (u : User.t) (entered : string) :
  pending_email sess = Some E ->
  User_filter_by_email (Some E) db = Some u ->
  otp_eqb (User.current_otp u) entered = false ->
  verify POST entered sess db
  = mkResult RenderVerify [] (flash "Invalid OTP. Please try again." sess) db.
Proof.
  intros Hp Hu Hneq. unfold verify. rewrite Hp, Hu, Hneq. reflexivity.
Qed.

Lemma verify_attempts_cons
    {H : Type} (code : string) (rest : list string)
    (sess : Session) (db : Database H) :
  verify_attempts (code :: rest) sess db
  = verify_attempts rest (session_after (verify POST code sess db))
                    (db_after (verify POST code sess db)).
Proof. reflexivity. Qed.

Lemma verify_attempts_wrong
    {H : Type} (db : Database H) (E : string) (u : User.t)
    (attempts : list string) :
  User_filter_by_email (Some E) db = Some u ->
  Forall (fun code => otp_eqb (User.current_otp u) code = false) attempts ->
  forall sess,
    pending_email sess = Some E ->
    snd (verify_attempts attempts sess db) = db
    /\ logged_in (fst (verify_attempts attempts sess db)) = logged_in sess
    /\ pending_email (fst (verify_attempts attempts sess db)) = Some E.
Proof.
  intros Hu Hall.
  induction Hall as [| code rest Hcode Hrest IH]; intros sess Hp.
  - unfold verify_attempts. simpl. auto.
  - rewrite verify_attempts_cons.
    rewrite (verify_wrong_code sess db E u code Hp Hu Hcode).
    cbn [session_after db_after].
    destruct (IH (flash "Invalid OTP. Please try again." sess) Hp)
      as (Hdb & Hlog & Hpend).
    auto.
Qed.

(** C3: with pending email E and stored code C, submitting a code other than
    C is answered with the verify page and the invalid-code message; the
    cookie's login is not set and the database is unchanged, so the stored
    code is still C.  This holds again after any number of wrong
    submissions: there is no retry limit and no lockout. *)
Theorem verify_wrong_code_changes_nothing
    (H : Type) (sess : Session) (db : Database H)
    (E : string) (u : User.t) (C entered : string) :
  pending_email sess = Some E ->
  User_filter_by_email (Some E) db = Some u ->
  User.current_otp u = Some C ->
  entered <> C ->
  verify POST entered sess db
  = mkResult RenderVerify [] (flash "Invalid OTP. Please try again." sess) db
  /\ logged_in (session_after (verify POST entered sess db)) = logged_in sess
  /\ db_after (verify POST entered sess db) = db
  /\ forall attempts,
       Forall (fun code => code <> C) attempts ->
       snd (verify_attempts attempts sess db) = db
       /\ logged_in (fst (verify_attempts attempts sess db)) = logged_in sess
       /\ pending_email (fst (verify_attempts attempts sess db)) = Some E.
Proof.
  intros Hp Hu HC Hneq.
  assert (Hwrong : forall code, code <> C ->
            otp_eqb (User.current_otp u) code = false).
  { intros code Hc. rewrite HC. simpl. apply String.eqb_neq. congruence. }
  rewrite (verify_wrong_code sess db E u entered Hp Hu (Hwrong _ Hneq)).
  split; [reflexivity | split; [reflexivity | split; [reflexivity | ]]].
  intros attempts Hattempts.
  apply (verify_attempts_wrong db E u attempts Hu); [ | exact Hp].
  revert Hattempts. apply Forall_impl. exact Hwrong.
Qed.

Lemma verify_wrong_code_changes_nothing_witness :
  verify POST "000000" (fst Scenario.alice_pending)
         (snd Scenario.alice_pending)
  = mkResult RenderVerify []
      (flash "Invalid OTP. Please try again." (fst Scenario.alice_pending))
      (snd Scenario.alice_pending)
  /\ logged_in (session_after (verify POST "000000"
                  (fst Scenario.alice_pending) (snd Scenario.alice_pending)))
     = None
  /\ db_after (verify POST "000000" (fst Scenario.alice_pending)
                      (snd Scenario.alice_pending))
     = snd Scenario.alice_pending
  /\ forall attempts,
       Forall (fun code => code <> "123456") attempts ->
       snd (verify_attempts attempts (fst Scenario.alice_pending)
                            (snd Scenario.alice_pending))
       = snd Scenario.alice_pending
       /\ logged_in (fst (verify_attempts attempts
                            (fst Scenario.alice_pending)
                            (snd Scenario.alice_pending)))
          = None
       /\ pending_email (fst (verify_attempts attempts
                                (fst Scenario.alice_pending)
                                (snd Scenario.alice_pending)))
          = Some Scenario.alice.
Proof.
  apply (verify_wrong_code_changes_nothing float (fst Scenario.alice_pending)
           (snd Scenario.alice_pending) Scenario.alice
           (User.mk 1 Scenario.alice (Some "123456")) "123456" "000000").
  - reflexivity.
  - reflexivity.
  - reflexivity.
  - discriminate.
Defined.

(** C9: when verify is invoked with no pending email in the cookie, or with
    a pending email that no account has, nobody is logged in by it and the
    database is unchanged.  A missing pending email matches no account, since
    no stored account has a null email. *)
Theorem verify_without_account_changes_nothing
    (H : Type) (method : Method) (otp : string)
    (sess : Session) (db : Database H) :
  (pending_email sess = None
   \/ exists E, pending_email sess = Some E
                /\ forall u, In u (users db) -> User.email u <> E) ->
  db_after (verify method otp sess db) = db
  /\ logged_in (session_after (verify method otp sess db)) = logged_in sess
  /\ response (verify method otp sess db) = RenderVerify
  /\ (forall u, In u (users db) -> email_is None u = false).
Proof.
  intros Hcase.
  assert (Hnone : User_filter_by_email (pending_email sess) db = None).
  { destruct Hcase as [-> | (E & -> & Hno)].
    - apply User_filter_by_email_none.
    - apply User_filter_by_email_missing. assumption. }
  unfold verify. destruct method; rewrite ?Hnone; simpl; auto.
Qed.

Lemma verify_without_account_changes_nothing_witness :
  db_after (verify POST "123456" new_session Scenario.db) = Scenario.db
  /\ logged_in (session_after (verify POST "123456" new_session Scenario.db))
     = None
  /\ response (verify POST "123456" new_session Scenario.db) = RenderVerify
  /\ (forall u, In u (users Scenario.db) -> email_is None u = false).
Proof.
  apply (verify_without_account_changes_nothing float POST "123456"
           new_session Scenario.db).
  left. reflexivity.
Defined.

(** After a login attempt for [e], the code stored for [e] is the new one. *)
Lemma login_post_stored_otp
    {H : Type} `{Number H} (e : string) (env : Env) (sess : Session)
    (db : Database H) :
  User_filter_by_email (Some e) (db_after (login POST e env sess db))
  = Some (User.mk
            (match User_filter_by_email (Some e) db with
             | Some u => User.id u
             | None => next_id (map User.id (users db))
             end)
            e (Some (str (randint 100000 999999 (entropy env))))).
Proof.
  destruct (User_filter_by_email (Some e) db) as [u |] eqn:Hf.
  - rewrite (login_post_existing e env sess db u Hf).
    unfold User_filter_by_email, set_current_otp in *. cbn [users].
    rewrite (find_email_set_same e (users db) u _ Hf).
    apply find_email_In in Hf. destruct Hf as [_ ->]. reflexivity.
  - rewrite (login_post_new e env sess db Hf).
    unfold User_filter_by_email, set_current_otp in *. cbn [users].
    set (new := User.mk (next_id (map User.id (users db))) e None).
    assert (Hnew : find (email_is (Some e)) (users db ++ [new]) = Some new).
    { rewrite (find_email_app_new e e (users db) new eq_refl), Hf.
      rewrite String.eqb_refl. reflexivity. }
    change (next_id (map User.id (users db))) with (User.id new).
    rewrite (find_email_set_same e (users db ++ [new]) new _ Hnew).
    reflexivity.
Qed.

(** A request that is not a code event for [E] leaves the code of [E]. *)
Lemma handle_stored_otp_frame
    {H : Type} `{Number H} (E : string) (env : Env) (req : Request H)
    (sess : Session) (db : Database H) :
  NoDup (map User.id (users db)) ->
  code_event E req sess db = false ->
  stored_otp E (db_after (handle env req sess db)) = stored_otp E db.
Proof.
  intros Hpk Hquiet.
  assert (Hother : forall e u' v,
            e <> E -> User_filter_by_email (Some e) db = Some u' ->
            stored_otp E (set_current_otp (User.id u') v db) = stored_otp E db).
  { intros e u' v Hne Hu'. unfold stored_otp, User_filter_by_email,
      set_current_otp in *. cbn [users]. f_equal.
    apply find_email_set_other. intros u Hu Hid.
    apply find_email_In in Hu. apply find_email_In in Hu'.
    destruct Hu as [Hin HE], Hu' as [Hin' He].
    assert (u = u') by (apply (users_same_id (users db)); assumption).
    subst u'. congruence. }
  destruct req as [[|] e | [|] otp | m subject hours | | id |];
    try (unfold stored_otp, User_filter_by_email;
         rewrite handle_users_unchanged by exact I; reflexivity).
  - (* login POST e, e <> E *)
    cbn [handle]. cbn [code_event] in Hquiet. apply String.eqb_neq in Hquiet.
    destruct (User_filter_by_email (Some e) db) as [u' |] eqn:Hf.
    + rewrite (login_post_existing e env sess db u' Hf).
      apply (Hother e); assumption.
    + rewrite (login_post_new e env sess db Hf).
      unfold stored_otp, User_filter_by_email, set_current_otp in *.
      cbn [users]. f_equal.
      set (new := User.mk (next_id (map User.id (users db))) e None).
      assert (Happ : find (email_is (Some E)) (users db ++ [new])
                     = find (email_is (Some E)) (users db)).
      { rewrite (find_email_app_new E e (users db) new eq_refl).
        destruct (find (email_is (Some E)) (users db)); [reflexivity | ].
        apply String.eqb_neq in Hquiet. rewrite Hquiet. reflexivity. }
      rewrite find_email_set_other; [exact Happ | ].
      intros u Hu. rewrite Happ in Hu. apply find_email_In in Hu.
      destruct Hu as [Hin _].
      assert (User.id u < next_id (map User.id (users db)))
        by (apply next_id_above, in_map; assumption).
      lia.
  - (* verify POST *)
    cbn [handle]. rewrite verify_post_db. cbn [code_event] in Hquiet.
    destruct (pending_email sess) as [e |]; cbn [User_filter_by_email].
    + destruct (User_filter_by_email (Some e) db) as [u' |] eqn:Hf;
        [ | reflexivity].
      destruct (otp_eqb (User.current_otp u') otp); [ | reflexivity].
      rewrite andb_true_r in Hquiet. apply String.eqb_neq in Hquiet.
      apply (Hother e); assumption.
    + rewrite User_filter_by_email_none. reflexivity.
Qed.

Lemma run_db_stored_otp_frame
    {H : Type} `{Number H} (E : string)
    (trace : list (Env * Request H * Session)) :
  forall db : Database H,
    NoDup (map User.id (users db)) ->
    quiet_for E trace db = true ->
    stored_otp E (run_db trace db) = stored_otp E db.
Proof.
  induction trace as [| [[env req] sess] rest IH]; intros db Hpk Hquiet;
    [reflexivity | ].
  rewrite run_db_cons. cbn [quiet_for] in Hquiet.
  apply andb_true_iff in Hquiet. destruct Hquiet as [Hnow Hrest].
  apply negb_true_iff in Hnow.
  rewrite IH; [ | apply handle_user_ids_NoDup; assumption | assumption].
  apply handle_stored_otp_frame; assumption.
Qed.

Lemma digit_value_digit (d : Z) :
  0 <= d < 10 -> digit_value (digit d) = Some d.
Proof.
  intros Hd.
  assert (Hcases : d = 0 \/ d = 1 \/ d = 2 \/ d = 3 \/ d = 4 \/ d = 5
                   \/ d = 6 \/ d = 7 \/ d = 8 \/ d = 9) by lia.
  repeat (destruct Hcases as [-> | Hcases]; [reflexivity | ]).
  subst d. reflexivity.
Qed.

(** Reading the six digits back gives the number. *)
Lemma decimal_value_str_six_digits (n : Z) :
  100000 <= n <= 999999 -> decimal_value (str n) = Some n.
Proof.
  intros Hn. rewrite str_six_digits by assumption.
  unfold decimal_value. cbn [decimal_digits].
  rewrite !digit_value_digit by (apply Z.mod_pos_bound; lia).
  f_equal. Z.to_euclidean_division_equations. lia.
Qed.

Example decimal_value_examples :
  decimal_value "123456" = Some 123456
  /\ decimal_value "000000" = Some 0
  /\ decimal_value "12a456" = None
  /\ decimal_value "" = None.
Proof. vm_compute. repeat split. Qed.

(** C8: the code generated and stored by a login attempt is the decimal
    string of an integer between 100000 and 999999, the one the generator
    drew: read back as a decimal numeral it gives that integer, and it has
    six characters, all digits. *)
Theorem login_code_is_six_digits
    (H : Type) (N : Number H) (email : string) (env : Env) (sess : Session)
    (db : Database H) :
  exists n : Z,
    100000 <= n <= 999999
    /\ n = randint 100000 999999 (entropy env)
    /\ stored_otp email (db_after (login POST email env sess db))
       = Some (Some (str n))
    /\ decimal_value (str n) = Some n
    /\ String.length (str n) = 6%nat
    /\ string_forallb isdigit (str n) = true.
Proof.
  exists (randint 100000 999999 (entropy env)).
  assert (Hr : 100000 <= randint 100000 999999 (entropy env) <= 999999)
    by (apply randint_range; lia).
  split; [exact Hr | split; [reflexivity | split; [ | split; [ | split]]]].
  - unfold stored_otp. rewrite login_post_stored_otp. reflexivity.
  - apply decimal_value_str_six_digits. exact Hr.
  - apply str_six_digits_length. exact Hr.
  - apply str_six_digits_numeric. exact Hr.
Qed.

(** With the generator on 123456, the code stored for Alice is 123456. *)
Lemma login_code_is_six_digits_witness :
  exists n : Z,
    n = 123456
    /\ stored_otp Scenario.alice
         (db_after (login POST Scenario.alice (Scenario.clock 738886 9 23456)
                          new_session (create_all float)))
       = Some (Some "123456")
    /\ str n = "123456".
Proof.
  destruct (login_code_is_six_digits float float_Number Scenario.alice
              (Scenario.clock 738886 9 23456) new_session (create_all float))
    as (n & _ & Hn & Hst & Hread & _ & _).
  assert (Hc : stored_otp Scenario.alice
                 (db_after (login POST Scenario.alice
                                  (Scenario.clock 738886 9 23456)
                                  new_session (create_all float)))
               = Some (Some "123456"))
    by (vm_compute; reflexivity).
  rewrite Hc in Hst. injection Hst as Hs. rewrite <- Hs in Hread.
  vm_compute in Hread. injection Hread as Hread.
  exists n. split; [symmetry; exact Hread | split; [exact Hc | ]].
  symmetry. exact Hs.
Defined.

(** The cookie a request is served with is opened as it is while it is at
    most 31 days old, and as an empty session afterwards. *)
Lemma open_session_fresh (env : Env) (c : Cookie) :
  0 <= timestamp env - signed_at c <= permanent_session_lifetime ->
  open_session env (Some c) = payload c.
Proof.
  intros Hage. unfold open_session. cbn zeta.
  destruct (timestamp env - signed_at c >? permanent_session_lifetime) eqn:E1;
    [apply Z.gtb_lt in E1; lia | ].
  destruct (timestamp env - signed_at c <? 0) eqn:E2;
    [apply Z.ltb_lt in E2; lia | ].
  reflexivity.
Qed.

Lemma open_session_expired (env : Env) (c : Cookie) :
  permanent_session_lifetime < timestamp env - signed_at c ->
  open_session env (Some c) = new_session.
Proof.
  intros Hage. unfold open_session. cbn zeta.
  destruct (timestamp env - signed_at c >? permanent_session_lifetime) eqn:E1;
    [reflexivity | ].
  rewrite Z.gtb_ltb in E1. apply Z.ltb_ge in E1. lia.
Qed.

(** A request that does not write to the session leaves it as it is. *)
Lemma session_unmodified
    {H : Type} `{Number H} (env : Env) (req : Request H) (sess : Session)
    (db : Database H) :
  session_modified req sess db = false ->
  session_after (handle env req sess db) = sess.
Proof.
  destruct req as [[|] e | [|] o | m subject h | | id |];
    cbn [session_modified handle]; try discriminate; try reflexivity;
    destruct (current_user sess db) as [user |] eqn:Hcu; try discriminate;
    intros _.
  - unfold index, login_required. rewrite Hcu.
    destruct m; [reflexivity | ].
    destruct h as [h |]; [ | reflexivity].
    destruct (storable h); [ | reflexivity].
    destruct (add_study_session subject h (utcnow env) (User.id user) db);
      reflexivity.
  - unfold stats, login_required. rewrite Hcu.
    destruct (daily_values user env db); reflexivity.
  - unfold delete, login_required. rewrite Hcu.
    destruct (get_or_404 id db) as [row | |]; try reflexivity.
    destruct (StudySession.user_id row =? User.id user); reflexivity.
Qed.

(** C5, as the code has it: a login attempt for E replaces the code stored
    for E's account by the newly generated one and hands the client a cookie
    signed at that moment; a successful verification for E sets the stored
    code to null; no other request changes it, however many there are and
    whenever they come.  The code verifies while the cookie of the login
    attempt is at most 31 days old; presented later, the cookie is dropped,
    the right code is refused and the stored code stays as it is. *)
Theorem one_time_code_lifecycle
    (H : Type) (N : Number H) (E : string) (db : Database H) :
  NoDup (map User.id (users db)) ->
  (forall env sess,
     stored_otp E (db_after (login POST E env sess db))
     = Some (Some (str (randint 100000 999999 (entropy env)))))
  /\ (forall env cookie,
        exists sess,
          snd (serve env (ReqLogin POST E) cookie db)
          = Some (mkCookie sess (timestamp env))
          /\ pending_email sess = Some E)
  /\ (forall sess C,
        pending_email sess = Some E ->
        stored_otp E db = Some (Some C) ->
        response (verify POST C sess db) = Redirect "index"
        /\ stored_otp E (db_after (verify POST C sess db)) = Some None)
  /\ (forall trace,
        quiet_for E trace db = true ->
        stored_otp E (run_db trace db) = stored_otp E db)
  /\ (forall trace env c C,
        quiet_for E trace db = true ->
        stored_otp E db = Some (Some C) ->
        pending_email (payload c) = Some E ->
        0 <= timestamp env - signed_at c <= permanent_session_lifetime ->
        response (fst (serve env (ReqVerify POST C) (Some c)
                             (run_db trace db)))
        = Redirect "index")
  /\ (forall trace env c C,
        quiet_for E trace db = true ->
        stored_otp E db = Some (Some C) ->
        permanent_session_lifetime < timestamp env - signed_at c ->
        response (fst (serve env (ReqVerify POST C) (Some c)
                             (run_db trace db)))
        = RenderVerify
        /\ stored_otp E (db_after (fst (serve env (ReqVerify POST C) (Some c)
                                              (run_db trace db))))
           = Some (Some C)).
Proof.
  intros Hpk.
  assert (Hclear : forall (d : Database H) sess C,
            pending_email sess = Some E ->
            stored_otp E d = Some (Some C) ->
            response (verify POST C sess d) = Redirect "index"
            /\ stored_otp E (db_after (verify POST C sess d)) = Some None).
  { intros d sess C Hp Hs. unfold stored_otp in *.
    destruct (User_filter_by_email (Some E) d) as [u |] eqn:Hf;
      [ | discriminate].
    cbn [option_map] in Hs. injection Hs as Hotp. split.
    - unfold verify. rewrite Hp, Hf, Hotp. cbn [otp_eqb].
      rewrite String.eqb_refl. reflexivity.
    - rewrite verify_post_db, Hp, Hf, Hotp. cbn [otp_eqb].
      rewrite String.eqb_refl.
      unfold User_filter_by_email, set_current_otp in *. cbn [users].
      rewrite (find_email_set_same E (users d) u None Hf). reflexivity. }
  split; [ | split; [ | split; [ | split; [ | split]]]].
  - intros env sess. unfold stored_otp. rewrite login_post_stored_otp.
    reflexivity.
  - intros env cookie.
    exists (mkSession (Some E) (logged_in (open_session env cookie))
                      (flashes (open_session env cookie))).
    split; [ | reflexivity].
    unfold serve. cbn [snd session_modified save_session handle].
    unfold login.
    destruct (User_filter_by_email (Some E) db) as [u |];
      [ | destruct (add_user E db)]; reflexivity.
  - intros sess C. apply Hclear.
  - intros trace Hq. apply run_db_stored_otp_frame; assumption.
  - intros trace env c C Hq Hs Hp Hage.
    unfold serve. cbn [fst handle]. rewrite open_session_fresh by exact Hage.
    apply (Hclear (run_db trace db) (payload c) C Hp).
    rewrite run_db_stored_otp_frame; assumption.
  - intros trace env c C Hq Hs Hage.
    unfold serve. cbn [fst handle]. rewrite open_session_expired by exact Hage.
    unfold verify. cbn [pending_email new_session].
    rewrite User_filter_by_email_none. cbn [response db_after].
    split; [reflexivity | ].
    rewrite run_db_stored_otp_frame; assumption.
Qed.

Lemma one_time_code_lifecycle_witness :
  stored_otp Scenario.alice
    (run_db Scenario.other_requests (snd Scenario.alice_pending))
  = Some (Some "123456")
  /\ response
       (fst (serve (Scenario.clock 738917 9 0) (ReqVerify POST "123456")
                   (Some (mkCookie (fst Scenario.alice_pending)
                                   (timestamp (Scenario.clock 738886 9 0))))
                   (run_db Scenario.other_requests
                           (snd Scenario.alice_pending))))
     = Redirect "index".
Proof.
  assert (Hpk : NoDup (map User.id (users (snd Scenario.alice_pending)))).
  { vm_compute. repeat constructor. simpl. intuition. }
  destruct (one_time_code_lifecycle float float_Number Scenario.alice
              (snd Scenario.alice_pending) Hpk)
    as (_ & _ & _ & Hframe & Hvalid & _).
  split.
  - rewrite (Hframe Scenario.other_requests); reflexivity.
  - apply (Hvalid Scenario.other_requests); try reflexivity.
    vm_compute. split; discriminate.
Defined.

(** Alice asks for a code on 2024-01-01 and types it, correctly, 32 days
    later, with no login attempt or verification in between: the code is
    still stored, and it is refused. *)
Lemma one_time_code_lifecycle_counterexample :
  let issued :=
    serve (Scenario.clock 738886 9 23456) (ReqLogin POST Scenario.alice)
          None (create_all float) in
  let late :=
    serve (Scenario.clock 738918 9 0) (ReqVerify POST "123456")
          (snd issued) (db_after (fst issued)) in
  printed (fst issued)
  = [ "------------------------------------------";
      "EMAIL SENT TO alice@example.com: YOUR OTP IS 123456";
      "------------------------------------------" ]%string
  /\ stored_otp Scenario.alice (db_after (fst issued))
     = Some (Some "123456")
  /\ response (fst late) = RenderVerify
  /\ response (fst late) <> Redirect "index"
  /\ stored_otp Scenario.alice (db_after (fst late)) = Some (Some "123456").
Proof.
  vm_compute. repeat split; discriminate.
Qed.

(** ** Accounts and emails *)

Lemma set_current_otp_no_row
    {H : Type} (i : Z) (v : option string) (us : list User.t) :
  ~ In i (map User.id us) ->
  map (fun u => if User.id u =? i
                then User.mk (User.id u) (User.email u) v else u) us
  = us.
Proof.
  induction us as [| x r IH]; simpl; intros Hno; [reflexivity | ].
  destruct (User.id x =? i) eqn:E.
  - apply Z.eqb_eq in E. exfalso. apply Hno. left. exact E.
  - f_equal. apply IH. intros Hin. apply Hno. right. exact Hin.
Qed.

(** C7: emails identify accounts.  Every request keeps the stored emails
    pairwise distinct, so they are distinct in every database the
    application reaches from an empty one.  A login attempt for an email
    without an account appends exactly one account for it, which is there at
    once, before any verification; a login attempt for an email with an
    account adds none. *)
Theorem one_account_per_email (H : Type) (N : Number H) :
  (forall env req sess (db : Database H),
     NoDup (map User.email (users db)) ->
     NoDup (map User.email (users (db_after (handle env req sess db)))))
  /\ (forall trace,
        NoDup (map User.email (users (run_db trace (create_all H)))))
  /\ (forall env sess (db : Database H) E,
        ~ In E (map User.email (users db)) ->
        exists u,
          users (db_after (login POST E env sess db)) = (users db ++ [u])%list
          /\ User.email u = E
          /\ User_filter_by_email (Some E)
               (db_after (login POST E env sess db)) = Some u)
  /\ (forall env sess (db : Database H) E,
        In E (map User.email (users db)) ->
        map User.email (users (db_after (login POST E env sess db)))
        = map User.email (users db)
        /\ map User.id (users (db_after (login POST E env sess db)))
           = map User.id (users db)).
Proof.
  split; [ | split; [ | split]].
  - intros env req sess db. apply handle_emails_NoDup.
  - intros trace.
    apply (run_db_invariant
             (fun d => NoDup (map User.email (users d)))).
    + intros env req sess d. apply handle_emails_NoDup.
    + simpl. constructor.
  - intros env sess db E Hno.
    assert (Hf : User_filter_by_email (Some E) db = None)
      by (apply find_email_None; exact Hno).
    exists (User.mk (next_id (map User.id (users db))) E
                    (Some (str (randint 100000 999999 (entropy env))))).
    split; [ | split; [reflexivity | ]].
    + rewrite (login_post_new E env sess db Hf).
      unfold set_current_otp. cbn [users]. rewrite map_app.
      rewrite (set_current_otp_no_row (H := H))
        by apply next_id_fresh.
      cbn [map User.id]. rewrite Z.eqb_refl. reflexivity.
    + rewrite login_post_stored_otp, Hf. reflexivity.
  - intros env sess db E Hin.
    destruct (User_filter_by_email (Some E) db) as [u |] eqn:Hf.
    + rewrite (login_post_existing E env sess db u Hf).
      rewrite set_current_otp_ids, set_current_otp_emails. auto.
    + apply find_email_None in Hf. contradiction.
Qed.

Lemma one_account_per_email_witness :
  (exists u,
     users (db_after (login POST "carol@example.com"
                        (Scenario.clock 738888 8 1) new_session Scenario.db))
     = (users Scenario.db ++ [u])%list
     /\ User.email u = "carol@example.com"
     /\ User_filter_by_email (Some "carol@example.com")
          (db_after (login POST "carol@example.com"
                       (Scenario.clock 738888 8 1) new_session Scenario.db))
        = Some u)
  /\ map User.email
       (users (db_after (login POST Scenario.alice
                           (Scenario.clock 738888 8 1) new_session
                           Scenario.db)))
     = [Scenario.alice; Scenario.bob].
Proof.
  destruct (one_account_per_email float float_Number)
    as (_ & _ & Hnew & Hold).
  split.
  - apply Hnew. vm_compute. intros [Ha | [Hb | []]]; discriminate.
  - apply Hold. vm_compute. left. reflexivity.
Defined.

(** ** Sums on an exact scale *)

Section Scale.
Context {H : Type} `{Number H}.
Variable num : Z -> H.
Variable bound : Z.
Hypothesis Hscale : exact_scale num bound.

Lemma total_cons (n : Z) (ns : list Z) : total (n :: ns) = n + total ns.
Proof. reflexivity. Qed.

Lemma total_nonneg (ns : list Z) :
  Forall (fun n => 0 <= n) ns -> 0 <= total ns.
Proof.
  induction 1 as [| n r Hn _ IH]; [cbn; lia | rewrite total_cons; lia].
Qed.

Lemma total_app (ms ns : list Z) : total (ms ++ ns) = total ms + total ns.
Proof.
  induction ms as [| m r IH]; [reflexivity | ].
  cbn [app]. rewrite !total_cons, IH. lia.
Qed.

Lemma fold_nums (ns : list Z) :
  forall a,
    Forall (fun n => 0 <= n) ns -> 0 <= a -> a + total ns <= bound ->
    fold_left add (map num ns) (num a) = num (a + total ns).
Proof.
  induction ns as [| n r IH]; intros a Hns Ha Hb; cbn [map fold_left].
  - f_equal. cbn. lia.
  - inversion Hns as [| ? ? Hn Hr]; subst. rewrite total_cons in *.
    pose proof (total_nonneg r Hr) as Hr0.
    rewrite (proj2 Hscale a n Ha Hn) by lia.
    rewrite IH by (assumption || lia). f_equal. lia.
Qed.

(** The sum of numbers on the scale is the number of their total. *)
Lemma sum_nums (ns : list Z) :
  Forall (fun n => 0 <= n) ns -> total ns <= bound ->
  sum (map num ns) = num (total ns).
Proof.
  intros Hns Hb. unfold sum. rewrite <- (proj1 Hscale).
  rewrite fold_nums by (assumption || lia). reflexivity.
Qed.

Section Rows.
Variable units : StudySession.t H -> Z.

Lemma hours_on_scale_map (rows : list (StudySession.t H)) :
  hours_on_scale num units rows ->
  map StudySession.hours rows = map num (map units rows)
  /\ Forall (fun n => 0 <= n) (map units rows).
Proof.
  induction rows as [| s r IH]; intros Hon; cbn [map].
  - split; constructor.
  - destruct (Hon s (or_introl eq_refl)) as [Hs Hs0].
    destruct (IH (fun x Hx => Hon x (or_intror Hx))) as [Hr Hr0].
    split; [rewrite Hs, Hr; reflexivity | constructor; assumption].
Qed.

Lemma sum_hours_on_scale (rows : list (StudySession.t H)) :
  hours_on_scale num units rows ->
  total (map units rows) <= bound ->
  sum (map StudySession.hours rows) = num (total (map units rows)).
Proof.
  intros Hon Hb. destruct (hours_on_scale_map rows Hon) as [-> Hnn].
  apply sum_nums; assumption.
Qed.

Lemma hours_on_scale_incl (rows rows' : list (StudySession.t H)) :
  (forall s, In s rows' -> In s rows) ->
  hours_on_scale num units rows -> hours_on_scale num units rows'.
Proof. intros Hincl Hon s Hs. apply Hon, Hincl, Hs. Qed.

Lemma total_units_filter (p : StudySession.t H -> bool)
    (rows : list (StudySession.t H)) :
  hours_on_scale num units rows ->
  0 <= total (map units (filter p rows)) <= total (map units rows).
Proof.
  induction rows as [| s r IH]; intros Hon; cbn [filter map];
    [cbn; lia | ].
  destruct (Hon s (or_introl eq_refl)) as [_ Hs0].
  specialize (IH (fun x Hx => Hon x (or_intror Hx))).
  destruct (p s); cbn [map]; rewrite ?total_cons; lia.
Qed.

Lemma total_units_perm (rows rows' : list (StudySession.t H)) :
  Permutation rows rows' ->
  total (map units rows) = total (map units rows').
Proof.
  induction 1; cbn [map]; rewrite ?total_cons; lia.
Qed.

(** The total over rows satisfying one of two exclusive conditions. *)
Lemma total_units_disjoint (p q : StudySession.t H -> bool)
    (rows : list (StudySession.t H)) :
  (forall s, In s rows -> p s = true -> q s = false) ->
  total (map units (filter (fun s => p s || q s) rows))
  = total (map units (filter p rows)) + total (map units (filter q rows)).
Proof.
  induction rows as [| s r IH]; intros Hdis; [reflexivity | ].
  specialize (IH (fun x Hx => Hdis x (or_intror Hx))).
  cbn [filter]. destruct (p s) eqn:Ep.
  - rewrite (Hdis s (or_introl eq_refl) Ep). cbn [orb map].
    rewrite !total_cons. lia.
  - cbn [orb]. destruct (q s); cbn [map]; rewrite ?total_cons; lia.
Qed.
End Rows.
End Scale.

(** ** Dates *)

Lemma weekday_range (d : Z) : 0 <= datetime.weekday d < 7.
Proof. unfold datetime.weekday. apply Z.mod_pos_bound. lia. Qed.

(** Comparing a row's date with the midnight of day [d] compares days. *)
Lemma midnight_le_iff (d : Z) (t : datetime.t) :
  (datetime.midnight d <=? t) = (d <=? datetime.date t).
Proof.
  unfold datetime.midnight, datetime.date, datetime.us_per_day.
  apply eq_true_iff_eq. rewrite !Z.leb_le.
  Z.to_euclidean_division_equations. lia.
Qed.

Lemma le_combine_max_iff (d : Z) (t : datetime.t) :
  (t <=? datetime.combine_max d) = (datetime.date t <=? d).
Proof.
  unfold datetime.combine_max, datetime.date, datetime.us_per_day.
  apply eq_true_iff_eq. rewrite !Z.leb_le.
  Z.to_euclidean_division_equations. lia.
Qed.

(** The Monday found by [stats] is a Monday, at most six days back. *)
Lemma start_of_week_monday (env : Env) :
  datetime.weekday (start_of_week env) = 0
  /\ start_of_week env <= datetime.date (now env) <= start_of_week env + 6.
Proof.
  unfold start_of_week, datetime.weekday.
  Z.to_euclidean_division_equations. lia.
Qed.

(** ** The weekly buckets *)

Section Buckets.
Context {H : Type} `{Number H}.

Lemma list_iadd_nat_total (l : list H) (n : nat) (v : H) :
  (n < List.length l)%nat ->
  exists l', list_iadd_nat l n v = Some l'
             /\ List.length l' = List.length l.
Proof.
  revert n. induction l as [| x r IH]; intros n Hn; simpl in Hn; [lia | ].
  destruct n as [| n]; simpl.
  - eexists. split; reflexivity.
  - destruct (IH n ltac:(lia)) as (r' & -> & Hlen).
    eexists. split; [reflexivity | simpl; congruence].
Qed.

Lemma list_iadd_total (l : list H) (i : Z) (v : H) :
  0 <= i < Z.of_nat (List.length l) ->
  exists l', list_iadd l i v = Some l'
             /\ List.length l' = List.length l.
Proof.
  intros Hi. unfold list_iadd.
  destruct (0 <=? i) eqn:E0; [ | apply Z.leb_gt in E0; lia].
  destruct (i <? Z.of_nat (List.length l)) eqn:E1;
    [ | apply Z.ltb_ge in E1; lia].
  simpl. apply list_iadd_nat_total. lia.
Qed.

Lemma fill_buckets_cons (s : StudySession.t H) rows (dv : list H) :
  fill_buckets (s :: rows) dv
  = match list_iadd dv
            (datetime.weekday (datetime.date (StudySession.date s)))
            (StudySession.hours s) with
    | Some dv' => fill_buckets rows dv'
    | None => None
    end.
Proof.
  unfold fill_buckets. cbn [fold_left].
  destruct (list_iadd dv _ _) as [dv' |]; [reflexivity | ].
  induction rows as [| x r IH]; [reflexivity | exact IH].
Qed.

(** The loop never indexes outside the seven buckets. *)
Lemma fill_buckets_total rows :
  forall dv : list H,
    List.length dv = 7%nat ->
    exists dv', fill_buckets rows dv = Some dv' /\ List.length dv' = 7%nat.
Proof.
  induction rows as [| s rows IH]; intros dv Hlen.
  - exists dv. split; [reflexivity | assumption].
  - rewrite fill_buckets_cons.
    destruct (list_iadd_total dv
                (datetime.weekday (datetime.date (StudySession.date s)))
                (StudySession.hours s)) as (dv1 & -> & Hlen1).
    + rewrite Hlen. apply weekday_range.
    + apply IH. congruence.
Qed.

Lemma daily_values_total (user : User.t) (env : Env) (db : Database H) :
  exists dv, daily_values user env db = Some dv /\ List.length dv = 7%nat.
Proof. apply fill_buckets_total. reflexivity. Qed.

(** [stats] answers a logged-in user with the statistics page. *)
Lemma stats_renders (env : Env) (sess : Session) (db : Database H)
    (user : User.t) :
  current_user sess db = Some user ->
  exists dv,
    daily_values user env db = Some dv
    /\ List.length dv = 7%nat
    /\ stats env sess db
       = mkResult
           (RenderStats user
              ["Mon"; "Tue"; "Wed"; "Thu"; "Fri"; "Sat"; "Sun"]%string dv
              (map (fun i => (week_start env i, week_end env i)) [0; 1; 2; 3])
              (weekly_values user env db)
              (map fst (subject_data user db))
              (map snd (subject_data user db)))
           [] sess db.
Proof.
  intros Hcu. destruct (daily_values_total user env db) as (dv & Hdv & Hlen).
  exists dv. split; [exact Hdv | split; [exact Hlen | ]].
  unfold stats, login_required. rewrite Hcu, Hdv. reflexivity.
Qed.

(** The current week's bar of chart 2 is the total of the week's rows. *)
Lemma weekly_values_current (user : User.t) (env : Env) (db : Database H) :
  nth 3 (weekly_values user env db) zero
  = sum (map StudySession.hours (current_week_records user env db)).
Proof.
  unfold weekly_values. cbn [map nth]. f_equal. f_equal.
  unfold week_sessions, current_week_records. apply filter_ext. intros s.
  rewrite midnight_le_iff, le_combine_max_iff.
  unfold week_end, week_start.
  replace (start_of_week env - 7 * (3 - 3)) with (start_of_week env) by lia.
  reflexivity.
Qed.

(** Without rows dated after Sunday, chart 1 reads the week's rows. *)
Lemma current_week_sessions_bounded (user : User.t) (env : Env)
    (db : Database H) :
  (forall s, In s (study_sessions db) ->
             StudySession.user_id s = User.id user ->
             datetime.date (StudySession.date s) <= start_of_week env + 6) ->
  current_week_sessions user env db = current_week_records user env db.
Proof.
  intros Hbound. unfold current_week_sessions, current_week_records.
  apply filter_ext_in. intros s Hin. rewrite midnight_le_iff.
  destruct (StudySession.user_id s =? User.id user) eqn:Eu; [ | reflexivity].
  apply Z.eqb_eq in Eu. specialize (Hbound s Hin Eu).
  apply Z.leb_le in Hbound. rewrite Hbound, andb_true_r. reflexivity.
Qed.
End Buckets.

Section ScaleBuckets.
Context {H : Type} `{Number H}.
Variable num : Z -> H.
Variable bound : Z.
Hypothesis Hscale : exact_scale num bound.
Variable units : StudySession.t H -> Z.

(** [l[k] += num n] on buckets that hold numbers of the scale. *)
Lemma list_iadd_nat_nums (ds : list Z) (n : Z) :
  forall (k : nat) (dv' : list H),
    Forall (fun d => 0 <= d) ds -> 0 <= n -> total ds + n <= bound ->
    list_iadd_nat (map num ds) k (num n) = Some dv' ->
    exists ds', dv' = map num ds'
                /\ Forall (fun d => 0 <= d) ds'
                /\ total ds' = total ds + n.
Proof.
  induction ds as [| d r IH]; intros k dv' Hds Hn Hb; [discriminate | ].
  inversion Hds as [| ? ? Hd Hr]; subst. rewrite total_cons in Hb.
  pose proof (total_nonneg r Hr) as Hr0.
  destruct k as [| k]; cbn [map list_iadd_nat].
  - intros [= <-]. exists (d + n :: r).
    rewrite (proj2 Hscale d n Hd Hn) by lia.
    split; [reflexivity | split; [constructor; [lia | exact Hr] | ]].
    rewrite !total_cons. lia.
  - destruct (list_iadd_nat (map num r) k (num n)) as [r' |] eqn:E;
      [ | discriminate].
    intros [= <-].
    destruct (IH k r' Hr Hn ltac:(lia) E) as (ds' & -> & Hds' & Ht).
    exists (d :: ds').
    split; [reflexivity | split; [constructor; assumption | ]].
    rewrite !total_cons. lia.
Qed.

Lemma list_iadd_nums (ds : list Z) (i n : Z) (dv' : list H) :
  Forall (fun d => 0 <= d) ds -> 0 <= n -> total ds + n <= bound ->
  list_iadd (map num ds) i (num n) = Some dv' ->
  exists ds', dv' = map num ds'
              /\ Forall (fun d => 0 <= d) ds'
              /\ total ds' = total ds + n.
Proof.
  intros Hds Hn Hb. unfold list_iadd.
  destruct (_ && _); [apply list_iadd_nat_nums; assumption | ].
  destruct (_ && _); [apply list_iadd_nat_nums; assumption | discriminate].
Qed.

(** The loop adds the units of its rows to the units in the buckets. *)
Lemma fill_buckets_nums (rows : list (StudySession.t H)) :
  forall (ds : list Z) (dv' : list H),
    hours_on_scale num units rows ->
    Forall (fun d => 0 <= d) ds ->
    total ds + total (map units rows) <= bound ->
    fill_buckets rows (map num ds) = Some dv' ->
    exists ds', dv' = map num ds'
                /\ Forall (fun d => 0 <= d) ds'
                /\ total ds' = total ds + total (map units rows).
Proof.
  induction rows as [| s rows IH]; intros ds dv' Hon Hds Hb.
  - intros [= <-]. exists ds. cbn.
    split; [reflexivity | split; [exact Hds | lia]].
  - rewrite fill_buckets_cons. cbn [map] in Hb. rewrite total_cons in Hb.
    destruct (Hon s (or_introl eq_refl)) as [Hs Hs0].
    assert (Hon' : hours_on_scale num units rows)
      by (intros x Hx; apply Hon; right; exact Hx).
    destruct (hours_on_scale_map num units rows Hon') as [_ Hnn].
    pose proof (total_nonneg _ Hnn) as Hr0.
    rewrite Hs.
    destruct (list_iadd (map num ds) _ (num (units s))) as [dv1 |] eqn:E;
      [ | discriminate].
    destruct (list_iadd_nums ds _ (units s) dv1 Hds Hs0 ltac:(lia) E)
      as (ds1 & -> & Hds1 & Ht1).
    intros Hrest.
    destruct (IH ds1 dv' Hon' Hds1 ltac:(lia) Hrest) as (ds' & -> & Hds' & Ht).
    exists ds'. split; [reflexivity | split; [exact Hds' | ]].
    cbn [map]. rewrite total_cons. lia.
Qed.

Lemma repeat_zero_nums (k : nat) :
  repeat zero k = map num (repeat 0 k)
  /\ Forall (fun d => 0 <= d) (repeat 0 k)
  /\ total (repeat 0 k) = 0.
Proof.
  induction k as [| k (IH1 & IH2 & IH3)]; cbn [repeat map].
  - split; [reflexivity | split; [constructor | reflexivity]].
  - rewrite IH1, (proj1 Hscale).
    split; [reflexivity | split; [constructor; [lia | exact IH2] | ]].
    rewrite total_cons. lia.
Qed.

(** On the scale, the buckets add up to the hours of the rows they read. *)
Lemma daily_values_on_scale (user : User.t) (env : Env) (db : Database H)
    (dv : list H) :
  hours_on_scale num units (current_week_sessions user env db) ->
  total (map units (current_week_sessions user env db)) <= bound ->
  daily_values user env db = Some dv ->
  sum dv
  = sum (map StudySession.hours (current_week_sessions user env db)).
Proof.
  intros Hon Hb Hdv. unfold daily_values in Hdv.
  destruct (repeat_zero_nums 7) as (Hz & Hz0 & Hzt). rewrite Hz in Hdv.
  destruct (fill_buckets_nums _ _ dv Hon Hz0 ltac:(lia) Hdv)
    as (ds' & -> & Hds' & Ht).
  rewrite (sum_nums num bound Hscale ds' Hds') by lia.
  rewrite (sum_hours_on_scale num bound Hscale units _ Hon Hb).
  f_equal. lia.
Qed.
End ScaleBuckets.

(** Whole hours add exactly in binary64 up to 168, the hours of a week. *)
Lemma whole_scale : exact_scale whole 168.
Proof.
  split; [reflexivity | ].
  intros m n Hm Hn Hb.
  destruct m as [| p | p]; [ | | lia];
    destruct n as [| q | q]; try lia; try reflexivity;
    repeat (destruct p as [p | p |]; try lia);
    repeat (destruct q as [q | q |]; try lia);
    vm_compute; reflexivity.
Qed.

(** Quarters of an hour add exactly up to 96, the quarters of a day. *)
Lemma quarter_scale : exact_scale quarter 96.
Proof.
  split; [reflexivity | ].
  intros m n Hm Hn Hb.
  destruct m as [| p | p]; [ | | lia];
    destruct n as [| q | q]; try lia; try reflexivity;
    repeat (destruct p as [p | p |]; try lia);
    repeat (destruct q as [q | q |]; try lia);
    vm_compute; reflexivity.
Qed.

(** Whole numbers beyond 2^53 do not: 2^53 + 1 is not the binary64 number of
    2^53 + 1, and the grouping of a sum shows. *)
Example whole_scale_limit :
  PrimFloat.add (whole 9007199254740992) (whole 1) = whole 9007199254740992
  /\ PrimFloat.add (PrimFloat.add (whole 9007199254740992) (whole 1))
                   (whole 1)
     = whole 9007199254740992
  /\ PrimFloat.add (whole 9007199254740992)
                   (PrimFloat.add (whole 1) (whole 1))
     = whole 9007199254740994.
Proof. vm_compute. repeat split. Qed.

(** C4, as the code has it: the week of the buckets starts on the Monday on
    or before today.  When the hours of the rows the buckets read are on a
    scale that adds without rounding up to a bound (in binary64: whole hours
    up to 168, quarters of an hour up to 24 hours), their total is within
    the bound, and the account has no
    record dated after the Sunday of the current week, the seven buckets of
    the stats operation add up to the hours of the account's records dated
    in the current week, which is also the last bar of the weekly chart. *)
Theorem weekly_buckets_match_week
    (H : Type) (N : Number H) (num : Z -> H) (bound : Z)
    (units : StudySession.t H -> Z)
    (env : Env) (sess : Session) (db : Database H) (user : User.t) :
  current_user sess db = Some user ->
  exact_scale num bound ->
  hours_on_scale num units (current_week_sessions user env db) ->
  total (map units (current_week_sessions user env db)) <= bound ->
  (forall s, In s (study_sessions db) ->
             StudySession.user_id s = User.id user ->
             datetime.date (StudySession.date s) <= start_of_week env + 6) ->
  datetime.weekday (start_of_week env) = 0
  /\ start_of_week env <= datetime.date (now env) <= start_of_week env + 6
  /\ buckets_match_week user env db
  /\ exists dv,
       stats env sess db
       = mkResult
           (RenderStats user
              ["Mon"; "Tue"; "Wed"; "Thu"; "Fri"; "Sat"; "Sun"]%string dv
              (map (fun i => (week_start env i, week_end env i)) [0; 1; 2; 3])
              (weekly_values user env db)
              (map fst (subject_data user db))
              (map snd (subject_data user db)))
           [] sess db
       /\ List.length dv = 7%nat
       /\ sum dv = nth 3 (weekly_values user env db) zero.
Proof.
  intros Hcu Hscale Hon Htotal Hbound.
  destruct (stats_renders env sess db user Hcu) as (dv & Hdv & Hlen & Hstats).
  assert (Hsum : sum dv = sum (map StudySession.hours
                                   (current_week_records user env db))).
  { rewrite (daily_values_on_scale num bound Hscale units user env db dv
               Hon Htotal Hdv).
    rewrite (current_week_sessions_bounded user env db Hbound). reflexivity. }
  split; [apply start_of_week_monday | ].
  split; [apply start_of_week_monday | ].
  split.
  - exists dv. split; assumption.
  - exists dv. split; [exact Hstats | split; [exact Hlen | ]].
    rewrite weekly_values_current. exact Hsum.
Qed.

Lemma weekly_buckets_match_week_witness :
  buckets_match_week WholeHours.carol_user WholeHours.wednesday WholeHours.db
  /\ daily_values WholeHours.carol_user WholeHours.wednesday WholeHours.db
     = Some [2; 4; 0; 0; 0; 0; 0]%float.
Proof.
  destruct (weekly_buckets_match_week float float_Number whole 168 whole_hours
              WholeHours.wednesday WholeHours.session WholeHours.db
              WholeHours.carol_user)
    as (_ & _ & Hmatch & _).
  - reflexivity.
  - exact whole_scale.
  - intros s Hin. vm_compute in Hin.
    destruct Hin as [<- | [<- | [<- | []]]]; vm_compute;
      (split; [reflexivity | discriminate]).
  - vm_compute. discriminate.
  - intros s Hin _. vm_compute in Hin.
    destruct Hin as [<- | [<- | [<- | []]]]; vm_compute; discriminate.
  - split; [exact Hmatch | reflexivity].
Defined.

(** A float is not equal to one that compares differently with a third. *)
Lemma float_neq (x y pivot : float) :
  PrimFloat.ltb x pivot = negb (PrimFloat.ltb y pivot) -> x <> y.
Proof. intros Hcmp ->. destruct (PrimFloat.ltb y pivot); discriminate. Qed.

(** C4 fails as stated.  With binary64 hours 0.1, 0.1 (Monday) and 0.7, 0.6
    (Tuesday) the buckets add up to 1.4999999999999998 while the week's hours
    are 1.5; and a record logged on Sunday evening by a server behind UTC is
    dated next Monday, so it is put into this week's Monday bucket although
    it is not a record of the current week. *)
Lemma weekly_buckets_match_week_counterexample :
  ~ buckets_match_week Fractions.dan_user Fractions.wednesday Fractions.db
  /\ ~ buckets_match_week BehindUTC.erin_user BehindUTC.sunday_evening
                          BehindUTC.db.
Proof.
  split; intros (dv & Hdv & Hsum); vm_compute in Hdv;
    injection Hdv as <-; revert Hsum.
  - apply (float_neq _ _ 1.5%float). vm_compute. reflexivity.
  - apply (float_neq _ _ 1%float). vm_compute. reflexivity.
Qed.

(** ** Totals per subject *)

Section Subjects.
Context {H : Type} `{Number H}.

Lemma dict_get_set_same {V : Type} (d : list (string * V)) (k : string)
    (v default : V) :
  dict_get (dict_set d k v) k default = v.
Proof.
  induction d as [| [k' v'] r IH]; simpl.
  - rewrite String.eqb_refl. reflexivity.
  - destruct (String.eqb k' k) eqn:E; simpl; rewrite E;
      [reflexivity | exact IH].
Qed.

Lemma dict_get_set_other {V : Type} (d : list (string * V)) (k k' : string)
    (v default : V) :
  k <> k' -> dict_get (dict_set d k v) k' default = dict_get d k' default.
Proof.
  intros Hne. induction d as [| [k0 v0] r IH]; simpl.
  - apply String.eqb_neq in Hne. rewrite Hne. reflexivity.
  - destruct (String.eqb k0 k) eqn:E; simpl.
    + apply String.eqb_eq in E. subst k0.
      apply String.eqb_neq in Hne. rewrite Hne. reflexivity.
    + destruct (String.eqb k0 k'); [reflexivity | exact IH].
Qed.

Lemma dict_set_keys {V : Type} (d : list (string * V)) (k : string) (v : V) :
  (In k (map fst d) /\ map fst (dict_set d k v) = map fst d)
  \/ (~ In k (map fst d) /\ map fst (dict_set d k v) = (map fst d ++ [k])%list).
Proof.
  induction d as [| [k' v'] r IH]; simpl.
  - right. split; [intros [] | reflexivity].
  - destruct (String.eqb k' k) eqn:E; simpl.
    + apply String.eqb_eq in E. left. split; [left; exact E | reflexivity].
    + apply String.eqb_neq in E.
      destruct IH as [[Hin ->] | [Hno ->]].
      * left. split; [right; exact Hin | reflexivity].
      * right. split; [intros [? | ?]; contradiction | reflexivity].
Qed.

Lemma subject_loop_cons (s : StudySession.t H) rows (d : list (string * H)) :
  subject_loop (s :: rows) d
  = subject_loop rows
      (dict_set d (StudySession.subject s)
                (add (dict_get d (StudySession.subject s) zero)
                     (StudySession.hours s))).
Proof. reflexivity. Qed.

Lemma subject_loop_keys rows :
  forall d : list (string * H),
    NoDup (map fst d) ->
    NoDup (map fst (subject_loop rows d))
    /\ forall k, In k (map fst (subject_loop rows d))
                 <-> In k (map fst d)
                     \/ exists s, In s rows /\ StudySession.subject s = k.
Proof.
  induction rows as [| s rows IH]; intros d Hnd.
  - split; [exact Hnd | ]. intros k. simpl. split; [auto | ].
    intros [Hin | (s & [] & _)]. exact Hin.
  - rewrite subject_loop_cons.
    set (d1 := dict_set d (StudySession.subject s) _).
    assert (Hd1 : NoDup (map fst d1)
                  /\ forall k, In k (map fst d1)
                               <-> In k (map fst d)
                                   \/ StudySession.subject s = k).
    { subst d1. destruct (dict_set_keys d (StudySession.subject s)
                            (add (dict_get d (StudySession.subject s) zero)
                                 (StudySession.hours s)))
        as [[Hin ->] | [Hno ->]].
      - split; [exact Hnd | ]. intros k. split; [auto | ].
        intros [Hk | <-]; assumption.
      - split; [apply NoDup_snoc; assumption | ]. intros k.
        rewrite in_app_iff. simpl. tauto. }
    destruct Hd1 as [Hnd1 Hkeys1].
    destruct (IH d1 Hnd1) as [Hnd' Hkeys']. split; [exact Hnd' | ].
    intros k. rewrite (Hkeys' k), (Hkeys1 k). simpl. split.
    + intros [[Hk | Hk] | (x & Hx & Hk)]; eauto.
    + intros [Hk | (x & [<- | Hx] & Hk)]; eauto.
Qed.

(** The total of a subject is the left-to-right sum of its rows' hours. *)
Lemma subject_loop_get rows (k : string) :
  forall d : list (string * H),
    dict_get (subject_loop rows d) k zero
    = fold_left add
        (map StudySession.hours
             (filter (fun s => String.eqb (StudySession.subject s) k) rows))
        (dict_get d k zero).
Proof.
  induction rows as [| s rows IH]; intros d; [reflexivity | ].
  rewrite subject_loop_cons, IH. cbn [filter].
  destruct (String.eqb (StudySession.subject s) k) eqn:E.
  - apply String.eqb_eq in E. rewrite E, dict_get_set_same. reflexivity.
  - apply String.eqb_neq in E. rewrite dict_get_set_other by exact E.
    reflexivity.
Qed.
End Subjects.

Section ScaleSubjects.
Context {H : Type} `{Number H}.
Variable num : Z -> H.
Variable bound : Z.
Hypothesis Hscale : exact_scale num bound.
Variable units : StudySession.t H -> Z.

Lemma dict_get_lift (dz : list (string * Z)) (k : string) :
  dict_get (lift num dz) k zero = num (dict_get dz k 0).
Proof.
  induction dz as [| [k' v'] r IH]; unfold lift; cbn [map dict_get fst snd].
  - symmetry. apply (proj1 Hscale).
  - destruct (String.eqb k' k); [reflexivity | exact IH].
Qed.

Lemma dict_set_lift (dz : list (string * Z)) (k : string) (m : Z) :
  dict_set (lift num dz) k (num m) = lift num (dict_set dz k m).
Proof.
  induction dz as [| [k' v'] r IH]; unfold lift; cbn [map dict_set fst snd].
  - reflexivity.
  - destruct (String.eqb k' k); cbn [map fst snd]; [reflexivity | ].
    f_equal. exact IH.
Qed.

Lemma dict_get_bounds (dz : list (string * Z)) (k : string) :
  Forall (fun d => 0 <= d) (map snd dz) ->
  0 <= dict_get dz k 0 <= total (map snd dz).
Proof.
  induction dz as [| [k' v'] r IH]; cbn [map snd dict_get]; intros Hnn.
  - cbn. lia.
  - inversion Hnn as [| ? ? Hv Hr]; subst. rewrite total_cons.
    specialize (IH Hr). pose proof (total_nonneg _ Hr).
    destruct (String.eqb k' k); lia.
Qed.

Lemma dict_set_units (dz : list (string * Z)) (k : string) (n : Z) :
  Forall (fun d => 0 <= d) (map snd dz) -> 0 <= n ->
  Forall (fun d => 0 <= d) (map snd (dict_set dz k (dict_get dz k 0 + n)))
  /\ total (map snd (dict_set dz k (dict_get dz k 0 + n)))
     = total (map snd dz) + n.
Proof.
  induction dz as [| [k' v'] r IH]; cbn [map snd dict_get dict_set];
    intros Hnn Hn.
  - split; [repeat constructor; lia | cbn; lia].
  - inversion Hnn as [| ? ? Hv Hr]; subst.
    destruct (String.eqb k' k); cbn [map snd].
    + split; [constructor; [lia | exact Hr] | rewrite !total_cons; lia].
    + destruct (IH Hr Hn) as [IH1 IH2].
      split; [constructor; assumption | rewrite !total_cons; lia].
Qed.

(** The loop adds the units of its rows to the units in the dictionary. *)
Lemma subject_loop_nums (rows : list (StudySession.t H)) :
  forall dz : list (string * Z),
    hours_on_scale num units rows ->
    Forall (fun d => 0 <= d) (map snd dz) ->
    total (map snd dz) + total (map units rows) <= bound ->
    exists dz',
      subject_loop rows (lift num dz) = lift num dz'
      /\ Forall (fun d => 0 <= d) (map snd dz')
      /\ total (map snd dz') = total (map snd dz) + total (map units rows).
Proof.
  induction rows as [| s rows IH]; intros dz Hon Hnn Hb.
  - exists dz. cbn. split; [reflexivity | split; [exact Hnn | lia]].
  - rewrite subject_loop_cons. cbn [map] in Hb. rewrite total_cons in Hb.
    destruct (Hon s (or_introl eq_refl)) as [Hs Hs0].
    assert (Hon' : hours_on_scale num units rows)
      by (intros x Hx; apply Hon; right; exact Hx).
    destruct (hours_on_scale_map num units rows Hon') as [_ Hrows].
    pose proof (total_nonneg _ Hrows) as Hr0.
    pose proof (dict_get_bounds dz (StudySession.subject s) Hnn) as Hget.
    rewrite dict_get_lift, Hs.
    rewrite (proj2 Hscale _ _ (proj1 Hget) Hs0) by lia.
    rewrite dict_set_lift.
    destruct (dict_set_units dz (StudySession.subject s) (units s) Hnn Hs0)
      as [Hnn1 Ht1].
    destruct (IH _ Hon' Hnn1 ltac:(lia)) as (dz' & Hloop & Hnn' & Ht').
    exists dz'. split; [exact Hloop | split; [exact Hnn' | ]].
    cbn [map]. rewrite total_cons. lia.
Qed.

(** On the scale, the subject totals add up to the hours of the rows. *)
Lemma subject_data_on_scale (user : User.t) (db : Database H) :
  hours_on_scale num units (all_sessions user db) ->
  total (map units (all_sessions user db)) <= bound ->
  sum (map snd (subject_data user db))
  = sum (map StudySession.hours (all_sessions user db)).
Proof.
  intros Hon Hb. unfold subject_data.
  destruct (subject_loop_nums (all_sessions user db) [] Hon
              (Forall_nil _) ltac:(cbn; lia))
    as (dz' & Hloop & Hnn' & Ht').
  change (@nil (string * H)) with (lift num []). rewrite Hloop.
  unfold lift. rewrite map_map. cbn [snd].
  rewrite <- (map_map snd num).
  rewrite (sum_nums num bound Hscale _ Hnn') by (cbn in Ht'; lia).
  rewrite (sum_hours_on_scale num bound Hscale units _ Hon Hb).
  f_equal. cbn in Ht'. lia.
Qed.
End ScaleSubjects.

(** C10, as the code has it: the subject labels of the stats operation are
    the distinct subjects of the account's records, each once, and each
    subject's total is the left-to-right sum of the hours of its records.
    When the hours of the account's records are on a scale that adds without
    rounding up to a bound (in binary64: whole hours up to 168, quarters of
    an hour up to 24 hours) and their total is within the bound, the totals
    add up to the hours of all the
    account's records, which is the total the index operation displays. *)
Theorem subject_totals_partition
    (H : Type) (N : Number H)
    (env : Env) (sess : Session) (db : Database H) (user : User.t) :
  current_user sess db = Some user ->
  NoDup (map fst (subject_data user db))
  /\ (forall k, In k (map fst (subject_data user db))
                <-> exists s, In s (all_sessions user db)
                              /\ StudySession.subject s = k)
  /\ (forall k, dict_get (subject_data user db) k zero
                = sum (map StudySession.hours
                         (filter (fun s => String.eqb (StudySession.subject s) k)
                                 (all_sessions user db))))
  /\ (exists dv,
        response (stats env sess db)
        = RenderStats user
            ["Mon"; "Tue"; "Wed"; "Thu"; "Fri"; "Sat"; "Sun"]%string dv
            (map (fun i => (week_start env i, week_end env i)) [0; 1; 2; 3])
            (weekly_values user env db)
            (map fst (subject_data user db))
            (map snd (subject_data user db)))
  /\ response (index GET "" None env sess db)
     = RenderIndex (index_sessions user db)
                   (sum (map StudySession.hours (index_sessions user db)))
                   user
  /\ (forall (num : Z -> H) (bound : Z) (units : StudySession.t H -> Z),
        exact_scale num bound ->
        hours_on_scale num units (all_sessions user db) ->
        total (map units (all_sessions user db)) <= bound ->
        subject_totals_match user db).
Proof.
  intros Hcu.
  destruct (subject_loop_keys (all_sessions user db) [] (NoDup_nil _))
    as [Hnd Hkeys].
  split; [exact Hnd | ].
  split.
  { intros k. unfold subject_data. rewrite (Hkeys k). simpl. tauto. }
  split.
  { intros k. unfold subject_data. rewrite subject_loop_get. reflexivity. }
  split.
  { destruct (stats_renders env sess db user Hcu) as (dv & _ & _ & ->).
    exists dv. reflexivity. }
  split.
  { unfold index, login_required. rewrite Hcu. reflexivity. }
  intros num bound units Hscale Hon Hb.
  assert (Hall : sum (map snd (subject_data user db))
                 = sum (map StudySession.hours (all_sessions user db)))
    by (apply (subject_data_on_scale num bound Hscale units); assumption).
  split; [exact Hall | ]. rewrite Hall.
  assert (Hperm : Permutation (index_sessions user db) (all_sessions user db))
    by apply order_by_date_desc_perm.
  rewrite (sum_hours_on_scale num bound Hscale units _ Hon Hb).
  rewrite (sum_hours_on_scale num bound Hscale units (index_sessions user db)).
  - f_equal. symmetry. apply total_units_perm. exact Hperm.
  - intros s Hs. apply Hon. apply (Permutation_in _ Hperm). exact Hs.
  - rewrite (total_units_perm units _ _ Hperm). exact Hb.
Qed.

Lemma subject_totals_partition_witness :
  subject_totals_match WholeHours.carol_user WholeHours.db
  /\ map snd (subject_data WholeHours.carol_user WholeHours.db)
     = [5; 1]%float
  /\ response (index GET "" None WholeHours.wednesday WholeHours.session
                     WholeHours.db)
     = RenderIndex (index_sessions WholeHours.carol_user WholeHours.db)
                   6%float WholeHours.carol_user.
Proof.
  destruct (subject_totals_partition float float_Number
              WholeHours.wednesday WholeHours.session WholeHours.db
              WholeHours.carol_user eq_refl)
    as (_ & _ & _ & _ & Hindex & Hmatch).
  split; [ | split; [reflexivity | rewrite Hindex; reflexivity]].
  apply (Hmatch whole 168 whole_hours).
  - exact whole_scale.
  - intros s Hin. vm_compute in Hin.
    destruct Hin as [<- | [<- | [<- | []]]]; vm_compute;
      (split; [reflexivity | discriminate]).
  - vm_compute. discriminate.
Defined.

(** C10 fails as stated.  With binary64 hours 0.1, 0.1 for maths and 0.7,
    0.6 for physics the subject totals are 0.2 and 1.2999999999999998, which
    add up to 1.4999999999999998, while the hours of the four records add up
    to 1.5, the total the index page displays. *)
Lemma subject_totals_partition_counterexample :
  ~ subject_totals_match Fractions.dan_user Fractions.db.
Proof.
  intros [Hall _]. revert Hall.
  apply (float_neq _ _ 1.5%float). vm_compute. reflexivity.
Qed.

Example fractions_pages :
  map snd (subject_data Fractions.dan_user Fractions.db)
  = [0.2%float; 1.2999999999999998%float]
  /\ daily_values Fractions.dan_user Fractions.wednesday Fractions.db
     = Some [0.2%float; 1.2999999999999998%float; 0%float; 0%float; 0%float;
             0%float; 0%float]
  /\ weekly_values Fractions.dan_user Fractions.wednesday Fractions.db
     = [0%float; 0%float; 0%float; 1.5%float]
  /\ sum (map StudySession.hours
              (index_sessions Fractions.dan_user Fractions.db))
     = 1.5%float.
Proof. vm_compute. repeat split. Qed.

Example behind_utc_pages :
  daily_values BehindUTC.erin_user BehindUTC.sunday_evening BehindUTC.db
  = Some [2%float; 0%float; 0%float; 0%float; 0%float; 0%float; 0%float]
  /\ weekly_values BehindUTC.erin_user BehindUTC.sunday_evening BehindUTC.db
     = [0%float; 0%float; 0%float; 0%float]
  /\ current_week_records BehindUTC.erin_user BehindUTC.sunday_evening
                          BehindUTC.db
     = []
  /\ datetime.weekday (datetime.date (now BehindUTC.sunday_evening)) = 6.
Proof. vm_compute. repeat split. Qed.

(** ** What each bucket holds, whatever the arithmetic *)

Section BucketContents.
Context {H : Type} `{Number H}.

Lemma list_iadd_nat_nth (l : list H) (n : nat) (v : H) (l' : list H) :
  list_iadd_nat l n v = Some l' ->
  forall k, nth k l' zero
            = if (k =? n)%nat then add (nth k l zero) v else nth k l zero.
Proof.
  revert n l'. induction l as [| x r IH]; intros n l'; [discriminate | ].
  destruct n as [| n]; simpl.
  - intros [= <-] [| k]; reflexivity.
  - destruct (list_iadd_nat r n v) as [r' |] eqn:E; [ | discriminate].
    intros [= <-] [| k]; [reflexivity | ]. simpl. apply (IH n r' E).
Qed.

Lemma list_iadd_nth (l : list H) (i : Z) (v : H) (l' : list H) :
  0 <= i < Z.of_nat (List.length l) ->
  list_iadd l i v = Some l' ->
  forall k, nth k l' zero
            = if (Z.of_nat k =? i) then add (nth k l zero) v else nth k l zero.
Proof.
  intros Hi. unfold list_iadd.
  destruct (0 <=? i) eqn:E0; [ | apply Z.leb_gt in E0; lia].
  destruct (i <? Z.of_nat (List.length l)) eqn:E1;
    [ | apply Z.ltb_ge in E1; lia].
  cbn [andb]. intros Hl' k. rewrite (list_iadd_nat_nth l _ v l' Hl' k).
  destruct (Nat.eqb_spec k (Z.to_nat i)), (Z.eqb_spec (Z.of_nat k) i);
    try reflexivity; lia.
Qed.

(** Bucket [k] receives, in table order, the hours of the rows dated on
    weekday [k]. *)
Lemma fill_buckets_nth rows (k : nat) :
  forall dv dv' : list H,
    List.length dv = 7%nat ->
    fill_buckets rows dv = Some dv' ->
    nth k dv' zero
    = fold_left add
        (map StudySession.hours
           (filter (fun s => datetime.weekday
                               (datetime.date (StudySession.date s))
                             =? Z.of_nat k) rows))
        (nth k dv zero).
Proof.
  induction rows as [| s rows IH]; intros dv dv' Hlen.
  - intros [= <-]. reflexivity.
  - rewrite fill_buckets_cons.
    pose proof (weekday_range (datetime.date (StudySession.date s))) as Hwd.
    destruct (list_iadd_total dv
                (datetime.weekday (datetime.date (StudySession.date s)))
                (StudySession.hours s)) as (dv1 & Hdv1 & Hlen1);
      [rewrite Hlen; exact Hwd | ].
    rewrite Hdv1. intros Hrest.
    rewrite (IH dv1 dv' ltac:(congruence) Hrest).
    rewrite (list_iadd_nth dv _ _ dv1 ltac:(rewrite Hlen; exact Hwd) Hdv1 k).
    cbn [filter]. rewrite (Z.eqb_sym (Z.of_nat k)).
    destruct (_ =? Z.of_nat k); reflexivity.
Qed.

Lemma nth_repeat_zero (k n : nat) : nth k (repeat (zero : H) n) zero = zero.
Proof.
  revert k. induction n as [| n IH]; intros [| k]; simpl; auto.
Qed.

Lemma daily_values_bucket (user : User.t) (env : Env) (db : Database H)
    (dv : list H) (k : nat) :
  daily_values user env db = Some dv ->
  nth k dv zero
  = sum (map StudySession.hours
           (filter (fun s => datetime.weekday
                               (datetime.date (StudySession.date s))
                             =? Z.of_nat k)
                   (current_week_sessions user env db))).
Proof.
  intros Hdv. unfold daily_values in Hdv.
  rewrite (fill_buckets_nth _ k (repeat zero 7) dv eq_refl Hdv).
  rewrite nth_repeat_zero.
  reflexivity.
Qed.
End BucketContents.

(** * Further properties of the routes *)

(** ** What each route does to the [StudySession] table *)

Section RecordFacts.
Context {H : Type} `{Number H}.

Lemma login_study_sessions (method : Method) (e : string) (env : Env)
    (sess : Session) (db : Database H) :
  study_sessions (db_after (login method e env sess db)) = study_sessions db.
Proof.
  destruct method; [reflexivity | ].
  destruct (User_filter_by_email (Some e) db) as [u |] eqn:Hf.
  - rewrite (login_post_existing e env sess db u Hf). reflexivity.
  - rewrite (login_post_new e env sess db Hf). reflexivity.
Qed.

Lemma verify_study_sessions (method : Method) (otp : string)
    (sess : Session) (db : Database H) :
  study_sessions (db_after (verify method otp sess db)) = study_sessions db.
Proof.
  destruct method; [reflexivity | ]. rewrite verify_post_db.
  destruct (User_filter_by_email _ _) as [user |]; [ | reflexivity].
  destruct (otp_eqb _ _); reflexivity.
Qed.

(** A POST to [/] by a logged-in user, with hours the column accepts and a
    key SQLite can store, appends one row. *)
Lemma index_post_result (subject : string) (h : H) (env : Env)
    (sess : Session) (db : Database H) (user : User.t) :
  current_user sess db = Some user ->
  storable h = true ->
  sqlite_integer (next_id (map StudySession.id (study_sessions db))) = true ->
  exists row,
    index POST subject (Some h) env sess db
    = mkResult (Redirect "/") [] sess
        (mkDatabase (users db) (study_sessions db ++ [row]))
    /\ StudySession.id row
       = next_id (map StudySession.id (study_sessions db))
    /\ StudySession.subject row = subject
    /\ StudySession.hours row = h
    /\ StudySession.date row = utcnow env
    /\ StudySession.user_id row = User.id user.
Proof.
  intros Hcu Hst Hfits.
  destruct (add_study_session_fits subject h (utcnow env) (User.id user) db
              Hfits) as (db' & Hadd).
  destruct (add_study_session_Some _ _ _ _ _ _ Hadd)
    as (Husers & row & Hrows & Hrow).
  exists row. split; [ | exact Hrow].
  unfold index, login_required. rewrite Hcu, Hst, Hadd.
  destruct db' as [us rows]. cbn [users study_sessions] in *.
  rewrite Husers, Hrows. reflexivity.
Qed.

(** Only a POST to [/] and a delete by the owner write to [StudySession]. *)
Lemma handle_study_sessions (env : Env) (req : Request H)
    (sess : Session) (db : Database H) :
  let db' := db_after (handle env req sess db) in
  study_sessions db' = study_sessions db
  \/ (exists user subject h row,
        req = ReqIndex POST subject (Some h)
        /\ current_user sess db = Some user
        /\ study_sessions db' = (study_sessions db ++ [row])%list
        /\ StudySession.id row
           = next_id (map StudySession.id (study_sessions db))
        /\ StudySession.user_id row = User.id user)
  \/ (exists user id row,
        req = ReqDelete id
        /\ current_user sess db = Some user
        /\ get_or_404 id db = Found row
        /\ StudySession.user_id row = User.id user
        /\ study_sessions db'
           = filter (fun s => negb (StudySession.id s =? StudySession.id row))
                    (study_sessions db)).
Proof.
  intros db'. subst db'.
  destruct req as [m e | m otp | m subject hours | | id |]; cbn [handle].
  - left. apply login_study_sessions.
  - left. apply verify_study_sessions.
  - unfold index, login_required.
    destruct (current_user sess db) as [user |] eqn:Hcu; [ | left; reflexivity].
    destruct m; [left; reflexivity | ].
    destruct hours as [h |]; [ | left; reflexivity].
    destruct (storable h); [ | left; reflexivity].
    destruct (add_study_session _ _ _ _ _) as [db' |] eqn:Hadd;
      [ | left; reflexivity].
    destruct (add_study_session_Some _ _ _ _ _ _ Hadd)
      as (_ & row & Hrows & Hid & _ & _ & _ & Hown).
    right. left. exists user, subject, h, row. cbn [db_after]. auto.
  - left. unfold stats, login_required.
    destruct (current_user sess db) as [user |]; [ | reflexivity].
    destruct (daily_values user env db); reflexivity.
  - unfold delete, login_required.
    destruct (current_user sess db) as [user |] eqn:Hcu; [ | left; reflexivity].
    destruct (get_or_404 id db) as [row | |] eqn:Hget;
      [ | left; reflexivity | left; reflexivity].
    destruct (StudySession.user_id row =? User.id user) eqn:Hown;
      [ | left; reflexivity].
    right. right. exists user, id, row. apply Z.eqb_eq in Hown. auto.
  - left. unfold logout, login_required.
    destruct (current_user sess db); reflexivity.
Qed.

Lemma current_user_In (sess : Session) (db : Database H) (user : User.t) :
  current_user sess db = Some user ->
  In user (users db) /\ logged_in sess = Some (User.id user).
Proof.
  unfold current_user, load_user, User_get.
  destruct (logged_in sess) as [i |]; [ | discriminate].
  intros Hf. apply find_some in Hf. destruct Hf as [Hin Hid].
  apply Z.eqb_eq in Hid. subst i. auto.
Qed.

Lemma StudySession_get_Some (id : Z) (db : Database H)
    (row : StudySession.t H) :
  StudySession_get id db = Some row ->
  In row (study_sessions db) /\ StudySession.id row = id.
Proof.
  unfold StudySession_get. intros Hf. apply find_some in Hf.
  destruct Hf as [Hin Hid]. apply Z.eqb_eq in Hid. auto.
Qed.

(** Removing rows keeps the remaining primary keys distinct. *)
Lemma study_session_ids_after_filter (keep : StudySession.t H -> bool)
    (rows : list (StudySession.t H)) :
  NoDup (map StudySession.id rows) ->
  NoDup (map StudySession.id (filter keep rows)).
Proof.
  induction rows as [| row rest IH]; cbn [filter map]; intros Hpk;
    [constructor | ].
  apply NoDup_cons_iff in Hpk. destruct Hpk as [Hrow Hrest].
  destruct (keep row); cbn [map]; [ | exact (IH Hrest)].
  apply NoDup_cons; [ | exact (IH Hrest)].
  intros Hin. apply Hrow. apply in_map_iff in Hin.
  destruct Hin as (other & Hid & Hother). apply filter_In in Hother.
  rewrite <- Hid. apply in_map. exact (proj1 Hother).
Qed.

(** Both primary keys stay distinct. *)
Lemma handle_keys_distinct (env : Env) (req : Request H)
    (sess : Session) (db : Database H) :
  keys_distinct db -> keys_distinct (db_after (handle env req sess db)).
Proof.
  intros [Hu Hs]. split; [apply handle_user_ids_NoDup; exact Hu | ].
  destruct (handle_study_sessions env req sess db)
    as [-> | [(user & subject & h & new & _ & _ & -> & Hid & _)
             | (user & id & row & _ & _ & _ & _ & ->)]].
  - exact Hs.
  - rewrite map_app. cbn [map]. rewrite Hid.
    apply NoDup_snoc; [exact Hs | apply next_id_fresh].
  - apply study_session_ids_after_filter. exact Hs.
Qed.

(** Owners stay stored users. *)
Lemma handle_owners_exist (env : Env) (req : Request H)
    (sess : Session) (db : Database H) :
  owners_exist db -> owners_exist (db_after (handle env req sess db)).
Proof.
  intros Hown s Hs.
  assert (Hids : forall i, In i (map User.id (users db)) ->
            In i (map User.id (users (db_after (handle env req sess db))))).
  { intros i Hi.
    destruct (handle_accounts env req sess db)
      as [[-> _] | (e & m & _ & _ & -> & _)];
      [exact Hi | apply in_or_app; left; exact Hi]. }
  destruct (handle_study_sessions env req sess db)
    as [Heq | [(user & subject & h & new & _ & Hcu & Heq & _ & Hnew)
              | (user & id & row & _ & _ & _ & _ & Heq)]];
    rewrite Heq in Hs.
  - apply Hids, Hown, Hs.
  - apply in_app_or in Hs. destruct Hs as [Hs | [<- | []]].
    + apply Hids, Hown, Hs.
    + apply Hids. rewrite Hnew.
      apply in_map. apply (current_user_In sess db user Hcu).
  - apply filter_In in Hs. apply Hids, Hown, Hs.
Qed.
End RecordFacts.

(** ** Records and who may change them *)

Lemma run_db_study_sessions_anonymous
    {H : Type} `{Number H} (trace : list (Env * Request H * Session)) :
  forall db : Database H,
    Forall (fun x => logged_in (snd x) = None) trace ->
    study_sessions (run_db trace db) = study_sessions db.
Proof.
  induction trace as [| [[env req] sess] rest IH]; intros db Hall;
    [reflexivity | ].
  inversion Hall as [| ? ? Hsess Hrest]; subst. cbn [snd] in Hsess.
  rewrite run_db_cons, (IH _ Hrest).
  assert (Hcu : current_user sess db = None)
    by (unfold current_user; rewrite Hsess; reflexivity).
  destruct (handle_study_sessions env req sess db)
    as [Heq | [(user & _ & _ & _ & _ & Hu & _)
              | (user & _ & _ & _ & Hu & _)]];
    [exact Heq | congruence | congruence].
Qed.

(** X1: a request to [/], [/stats], [/delete/<id>] or [/logout] from a client
    that is not logged in is answered by the redirection to the login view
    and leaves the database as it is; and whatever requests clients that are
    not logged in send, no study record is added, changed or removed. *)
Theorem anonymous_clients_change_no_record (H : Type) (N : Number H) :
  (forall env (req : Request H) sess (db : Database H),
     current_user sess db = None ->
     match req with
     | ReqLogin _ _ | ReqVerify _ _ => True
     | _ =>
         handle env req sess db
         = mkResult Unauthorized []
                    (flash "Please log in to access this page." sess) db
     end)
  /\ (forall (trace : list (Env * Request H * Session)) (db : Database H),
        Forall (fun x => logged_in (snd x) = None) trace ->
        study_sessions (run_db trace db) = study_sessions db).
Proof.
  split.
  - intros env req sess db Hcu.
    destruct req; cbn [handle]; try exact I;
      unfold index, stats, delete, logout, login_required;
      rewrite Hcu; reflexivity.
  - intros trace db. apply run_db_study_sessions_anonymous.
Qed.

Lemma anonymous_clients_change_no_record_witness :
  handle (Scenario.clock 738888 8 0) (ReqDelete 3) new_session Scenario.db
  = mkResult Unauthorized []
             (flash "Please log in to access this page." new_session)
             Scenario.db
  /\ study_sessions
       (run_db [ (Scenario.clock 738888 8 0, ReqDelete 1, new_session);
                 (Scenario.clock 738888 8 5, ReqLogin POST Scenario.alice,
                  new_session);
                 (Scenario.clock 738888 9 0,
                  ReqIndex POST "math" (Some 1%float),
                  fst Scenario.alice_pending) ]
               Scenario.db)
     = study_sessions Scenario.db.
Proof.
  destruct (anonymous_clients_change_no_record float float_Number)
    as [Hone Hmany].
  split.
  - apply (Hone (Scenario.clock 738888 8 0) (ReqDelete 3) new_session
             Scenario.db). reflexivity.
  - apply Hmany. repeat constructor.
Defined.

(** X2: primary keys stay distinct in both tables: every request keeps them
    so, hence they are distinct in every database reached from the empty
    one created at start-up. *)
Theorem primary_keys_stay_distinct (H : Type) (N : Number H) :
  (forall env (req : Request H) sess (db : Database H),
     keys_distinct db -> keys_distinct (db_after (handle env req sess db)))
  /\ (forall trace : list (Env * Request H * Session),
        keys_distinct (run_db trace (create_all H))).
Proof.
  split.
  - intros env req sess db. apply handle_keys_distinct.
  - intros trace. apply (run_db_invariant keys_distinct).
    + intros env req sess d. apply handle_keys_distinct.
    + split; constructor.
Qed.

Lemma primary_keys_stay_distinct_witness :
  keys_distinct
    (db_after (handle (Scenario.clock 738888 8 0)
                      (ReqIndex POST "math" (Some 1%float))
                      Scenario.alice_session Scenario.db)).
Proof.
  apply (proj1 (primary_keys_stay_distinct float float_Number)).
  split; vm_compute; repeat constructor; simpl; intuition discriminate.
Defined.

(** X3: the owner of every study record is a stored account: every request
    keeps this so (accounts are never removed and a record is created for
    the logged-in account), hence it holds in every database reached from
    the empty one. *)
Theorem record_owners_exist (H : Type) (N : Number H) :
  (forall env (req : Request H) sess (db : Database H),
     owners_exist db -> owners_exist (db_after (handle env req sess db)))
  /\ (forall trace : list (Env * Request H * Session),
        owners_exist (run_db trace (create_all H))).
Proof.
  split.
  - intros env req sess db. apply handle_owners_exist.
  - intros trace. apply (run_db_invariant owners_exist).
    + intros env req sess d. apply handle_owners_exist.
    + intros s [].
Qed.

Lemma record_owners_exist_witness :
  owners_exist
    (db_after (handle (Scenario.clock 738888 8 0)
                      (ReqIndex POST "math" (Some 1%float))
                      Scenario.bob_session Scenario.db)).
Proof.
  apply (proj1 (record_owners_exist float float_Number)).
  intros s Hs. vm_compute in Hs.
  destruct Hs as [<- | [<- | [<- | []]]]; vm_compute; auto.
Defined.

Lemma filter_filter_implied {A : Type} (p q : A -> bool) (l : list A) :
  (forall x, In x l -> p x = true -> q x = true) ->
  filter p (filter q l) = filter p l.
Proof.
  induction l as [| x r IH]; simpl; intros Himp; [reflexivity | ].
  assert (IH' : filter p (filter q r) = filter p r)
    by (apply IH; intros y Hy; apply Himp; right; exact Hy).
  destruct (q x) eqn:Eq; simpl; rewrite IH'.
  - reflexivity.
  - destruct (p x) eqn:Ep; [ | reflexivity].
    rewrite (Himp x (or_introl eq_refl) Ep) in Eq. discriminate.
Qed.

(** X4: no request changes the records of an account other than the one
    the client is logged in as: for any request, if the client is logged in
    as nobody or as someone other than B, the rows owned by B are the same,
    in the same order, after it. *)
Theorem other_accounts_records_untouched
    (H : Type) (N : Number H) (env : Env) (req : Request H)
    (sess : Session) (db : Database H) (B : User.t) :
  NoDup (map StudySession.id (study_sessions db)) ->
  (forall A, current_user sess db = Some A -> User.id A <> User.id B) ->
  all_sessions B (db_after (handle env req sess db)) = all_sessions B db.
Proof.
  intros Hpk Hother. unfold all_sessions.
  destruct (handle_study_sessions env req sess db)
    as [-> | [(user & subject & h & new & _ & Hcu & -> & _ & Hnew)
             | (user & id & row & _ & Hcu & Hget & Hown & ->)]].
  - reflexivity.
  - rewrite filter_app. cbn [filter]. rewrite Hnew.
    destruct (Z.eqb_spec (User.id user) (User.id B)) as [Heq | _].
    + exfalso. exact (Hother user Hcu Heq).
    + apply app_nil_r.
  - apply filter_filter_implied. intros s Hs HsB.
    apply Z.eqb_eq in HsB. apply negb_true_iff, Z.eqb_neq. intros Hid.
    apply get_or_404_Found in Hget. destruct Hget as [Hrow _].
    assert (s = row).
    { pose proof (StudySession_get_In s db Hpk Hs) as Hgs.
      pose proof (StudySession_get_In row db Hpk Hrow) as Hgr.
      rewrite Hid in Hgs. congruence. }
    subst s. apply (Hother user Hcu). congruence.
Qed.

Lemma other_accounts_records_untouched_witness :
  all_sessions Scenario.bob_user
    (db_after (handle (Scenario.clock 738888 8 0) (ReqDelete 1)
                      Scenario.alice_session Scenario.db))
  = all_sessions Scenario.bob_user Scenario.db.
Proof.
  apply (other_accounts_records_untouched float float_Number).
  - vm_compute. repeat constructor; simpl; intuition discriminate.
  - intros A HA. vm_compute in HA. injection HA as <-. vm_compute.
    discriminate.
Defined.

(** ** Adding, listing and deleting one's own records *)

Section OwnRecords.
Context {H : Type} `{Number H}.

Lemma current_user_same_users (sess : Session) (db db' : Database H) :
  users db' = users db -> current_user sess db' = current_user sess db.
Proof.
  intros Hu. unfold current_user, load_user, User_get. rewrite Hu.
  reflexivity.
Qed.

Lemma find_snoc_fresh {A : Type} (p : A -> bool) (l : list A) (x : A) :
  (forall y, In y l -> p y = false) ->
  find p (l ++ [x]) = if p x then Some x else None.
Proof.
  induction l as [| y r IH]; simpl; intros Hno; [reflexivity | ].
  rewrite (Hno y (or_introl eq_refl)). apply IH.
  intros z Hz. apply Hno. right. exact Hz.
Qed.

Lemma filter_all {A : Type} (p : A -> bool) (l : list A) :
  (forall y, In y l -> p y = true) -> filter p l = l.
Proof.
  induction l as [| y r IH]; simpl; intros Hall; [reflexivity | ].
  rewrite (Hall y (or_introl eq_refl)). f_equal. apply IH.
  intros z Hz. apply Hall. right. exact Hz.
Qed.

Lemma study_session_id_below_next (db : Database H) (s : StudySession.t H) :
  In s (study_sessions db) ->
  StudySession.id s < next_id (map StudySession.id (study_sessions db)).
Proof. intros Hs. apply next_id_above, in_map. exact Hs. Qed.

Lemma insert_desc_sorted (s : StudySession.t H) l :
  StronglySorted
    (fun a b => StudySession.date b <= StudySession.date a) l ->
  StronglySorted
    (fun a b => StudySession.date b <= StudySession.date a)
    (insert_desc s l).
Proof.
  induction 1 as [| x r Hr IH Hx]; simpl.
  - repeat constructor.
  - destruct (StudySession.date x <=? StudySession.date s) eqn:E.
    + apply Z.leb_le in E. constructor.
      * constructor; assumption.
      * constructor; [lia | ]. eapply Forall_impl; [ | exact Hx].
        intros b Hb. simpl in Hb. lia.
    + apply Z.leb_gt in E. constructor; [exact IH | ].
      apply (Permutation_Forall
               (Permutation_sym (insert_desc_perm s r))).
      constructor; [lia | assumption].
Qed.

Lemma order_by_date_desc_sorted (l : list (StudySession.t H)) :
  StronglySorted
    (fun a b => StudySession.date b <= StudySession.date a)
    (order_by_date_desc l).
Proof.
  induction l as [| x r IH]; simpl; [constructor | ].
  apply insert_desc_sorted. exact IH.
Qed.
End OwnRecords.

(** Alice's two records carry the same date: they are listed in table
    order. *)
Example index_ties_keep_table_order :
  map StudySession.date (index_sessions Scenario.alice_user Scenario.db)
  = [Scenario.at_ 738886 9; Scenario.at_ 738886 9]
  /\ map StudySession.id (index_sessions Scenario.alice_user Scenario.db)
     = [1; 2].
Proof. vm_compute. split; reflexivity. Qed.

(** X5: the listing of the index operation is ordered by date, latest
    first, and is a rearrangement of the rows the logged-in account owns:
    no row is lost or shown twice. *)
Theorem index_lists_newest_first
    (H : Type) (N : Number H) (env : Env) (sess : Session) (db : Database H)
    (A : User.t) (subject : string) (hours : option H) :
  current_user sess db = Some A ->
  exists sessions total_hours,
    response (index GET subject hours env sess db)
    = RenderIndex sessions total_hours A
    /\ StronglySorted
         (fun a b => StudySession.date b <= StudySession.date a) sessions
    /\ Permutation sessions (all_sessions A db)
    /\ total_hours = sum (map StudySession.hours sessions).
Proof.
  intros Hcu.
  exists (index_sessions A db),
         (sum (map StudySession.hours (index_sessions A db))).
  split; [ | split; [ | split]].
  - unfold index, login_required. rewrite Hcu. reflexivity.
  - apply order_by_date_desc_sorted.
  - apply order_by_date_desc_perm.
  - reflexivity.
Qed.

Lemma index_lists_newest_first_witness :
  exists sessions total_hours,
    response (index GET "" None Fractions.wednesday Fractions.session
                    Fractions.db)
    = RenderIndex sessions total_hours Fractions.dan_user
    /\ map StudySession.id sessions = [4; 3; 2; 1]
    /\ StronglySorted
         (fun a b => StudySession.date b <= StudySession.date a) sessions.
Proof.
  destruct (index_lists_newest_first float float_Number Fractions.wednesday
              Fractions.session Fractions.db Fractions.dan_user "" None
              eq_refl)
    as (sessions & total_hours & Hpage & Hsorted & _ & _).
  exists sessions, total_hours.
  split; [exact Hpage | split; [ | exact Hsorted]].
  vm_compute in Hpage. injection Hpage as <- _. reflexivity.
Defined.



Lemma delete_own_result
    {H : Type} `{Number H} (sess : Session) (db : Database H)
    (A : User.t) (R : StudySession.t H) :
  NoDup (map StudySession.id (study_sessions db)) ->
  current_user sess db = Some A ->
  In R (study_sessions db) ->
  StudySession.user_id R = User.id A ->
  delete (StudySession.id R) sess db
  = mkResult (Redirect "/") [] sess
      (delete_study_session (StudySession.id R) db).
Proof.
  intros Hpk Hcu HR Hown. unfold delete, login_required.
  rewrite Hcu, (get_or_404_In R db Hpk HR), Hown, Z.eqb_refl.
  reflexivity.
Qed.

(** X7: when a logged-in account A deletes a stored record R that it owns,
    exactly R is removed: every other row stays, in order; accounts and the
    cookie are untouched; and a second delete of the same id is answered
    with not-found. *)
Theorem delete_own_record_removes_it
    (H : Type) (N : Number H) (sess : Session) (db : Database H)
    (A : User.t) (R : StudySession.t H) :
  NoDup (map StudySession.id (study_sessions db)) ->
  current_user sess db = Some A ->
  In R (study_sessions db) ->
  StudySession.user_id R = User.id A ->
  response (delete (StudySession.id R) sess db) = Redirect "/"
  /\ session_after (delete (StudySession.id R) sess db) = sess
  /\ users (db_after (delete (StudySession.id R) sess db)) = users db
  /\ (forall s,
        In s (study_sessions (db_after (delete (StudySession.id R) sess db)))
        <-> In s (study_sessions db) /\ s <> R)
  /\ (exists before after,
        study_sessions db = (before ++ R :: after)%list
        /\ study_sessions (db_after (delete (StudySession.id R) sess db))
           = (before ++ after)%list)
  /\ delete (StudySession.id R) sess
            (db_after (delete (StudySession.id R) sess db))
     = mkResult NotFound [] sess
                (db_after (delete (StudySession.id R) sess db)).
Proof.
  intros Hpk Hcu HR Hown.
  rewrite (delete_own_result sess db A R Hpk Hcu HR Hown).
  cbn [response session_after db_after].
  assert (Hmem : forall s,
            In s (study_sessions (delete_study_session (StudySession.id R) db))
            <-> In s (study_sessions db) /\ s <> R).
  { intros s. unfold delete_study_session. cbn [study_sessions].
    rewrite filter_In, negb_true_iff, Z.eqb_neq. split.
    - intros [Hs Hid]. split; [exact Hs | congruence].
    - intros [Hs Hne]. split; [exact Hs | ]. intros Hid. apply Hne.
      pose proof (StudySession_get_In s db Hpk Hs) as Hgs.
      pose proof (StudySession_get_In R db Hpk HR) as HgR.
      rewrite Hid in Hgs. congruence. }
  split; [reflexivity | split; [reflexivity | split; [reflexivity | ]]].
  split; [exact Hmem | split].
  - destruct (in_split R (study_sessions db) HR) as (before & after & Hsplit).
    exists before, after. split; [exact Hsplit | ].
    unfold delete_study_session. cbn [study_sessions].
    rewrite Hsplit in Hpk |- *. rewrite filter_app. cbn [filter].
    rewrite Z.eqb_refl. cbn [negb].
    rewrite map_app in Hpk. cbn [map] in Hpk.
    apply NoDup_remove_2 in Hpk.
    rewrite !filter_all; [reflexivity | | ];
      intros y Hy; apply negb_true_iff, Z.eqb_neq; intros Hid;
      apply Hpk, in_or_app; [right | left]; rewrite <- Hid;
      apply in_map; exact Hy.
  - unfold delete, login_required.
    rewrite (current_user_same_users sess db
               (delete_study_session (StudySession.id R) db) eq_refl), Hcu.
    rewrite get_or_404_missing;
      [reflexivity | apply StudySession.id_fits | ].
    intros s Hs Hid. apply Hmem in Hs. destruct Hs as [Hs Hne].
    apply Hne.
    pose proof (StudySession_get_In s db Hpk Hs) as Hgs.
    pose proof (StudySession_get_In R db Hpk HR) as HgR.
    rewrite Hid in Hgs. congruence.
Qed.

Lemma delete_own_record_removes_it_witness :
  map StudySession.id
      (study_sessions (db_after (delete 3 Scenario.bob_session Scenario.db)))
  = [1; 2]
  /\ delete 3 Scenario.bob_session
            (db_after (delete 3 Scenario.bob_session Scenario.db))
     = mkResult NotFound [] Scenario.bob_session
                (db_after (delete 3 Scenario.bob_session Scenario.db)).
Proof.
  assert (Hpk : NoDup (map StudySession.id (study_sessions Scenario.db))).
  { vm_compute. repeat constructor; simpl; intuition discriminate. }
  assert (HR : In Scenario.bob_record (study_sessions Scenario.db)).
  { vm_compute. right. right. left. reflexivity. }
  destruct (delete_own_record_removes_it float float_Number
              Scenario.bob_session Scenario.db Scenario.bob_user
              Scenario.bob_record Hpk eq_refl HR eq_refl)
    as (_ & _ & _ & _ & _ & Hagain).
  split; [reflexivity | exact Hagain].
Defined.

(** X8: a record added by a logged-in account (hours the column accepts, a
    key SQLite can store) and then deleted by it leaves the database exactly
    as it was before the two requests. *)
Theorem post_then_delete_restores
    (H : Type) (N : Number H) (subject : string) (h : H) (env : Env)
    (sess : Session) (db : Database H) (A : User.t) :
  current_user sess db = Some A ->
  storable h = true ->
  sqlite_integer (next_id (map StudySession.id (study_sessions db))) = true ->
  response (index POST subject (Some h) env sess db) = Redirect "/"
  /\ delete (next_id (map StudySession.id (study_sessions db)))
            (session_after (index POST subject (Some h) env sess db))
            (db_after (index POST subject (Some h) env sess db))
     = mkResult (Redirect "/") [] sess db.
Proof.
  intros Hcu Hst Hfits.
  destruct (index_post_result subject h env sess db A Hcu Hst Hfits)
    as (row & -> & Hid & _ & _ & _ & Hown).
  cbn [response session_after db_after]. split; [reflexivity | ].
  set (db1 := mkDatabase (users db) (study_sessions db ++ [row])).
  assert (Hfresh : forall s, In s (study_sessions db) ->
            (StudySession.id s
             =? next_id (map StudySession.id (study_sessions db))) = false).
  { intros s Hs. apply Z.eqb_neq.
    pose proof (study_session_id_below_next db s Hs). lia. }
  unfold delete, login_required.
  rewrite (current_user_same_users sess db db1 eq_refl), Hcu.
  unfold get_or_404, StudySession_get. rewrite Hfits.
  subst db1. cbn [study_sessions].
  rewrite (find_snoc_fresh _ (study_sessions db) row Hfresh).
  rewrite Hid, Z.eqb_refl, Hown, Z.eqb_refl.
  unfold delete_study_session. cbn [study_sessions users].
  rewrite filter_app. cbn [filter]. rewrite Hid, Z.eqb_refl. cbn [negb].
  rewrite app_nil_r, filter_all.
  - destruct db. reflexivity.
  - intros s Hs. rewrite (Hfresh s Hs). reflexivity.
Qed.

Lemma post_then_delete_restores_witness :
  delete 4
    (session_after (index POST "history" (Some 1.25%float)
                      (Scenario.clock 738888 8 0) Scenario.alice_session
                      Scenario.db))
    (db_after (index POST "history" (Some 1.25%float)
                     (Scenario.clock 738888 8 0)
                     Scenario.alice_session Scenario.db))
  = mkResult (Redirect "/") [] Scenario.alice_session Scenario.db.
Proof.
  apply (post_then_delete_restores float float_Number "history" 1.25%float
           (Scenario.clock 738888 8 0) Scenario.alice_session Scenario.db
           Scenario.alice_user); reflexivity.
Defined.

(** ** Logging in and out *)

Section LoginFacts.
Context {H : Type} `{Number H}.

(** Looking a user up by primary key after its code was written. *)
Lemma find_id_set_same (us : list User.t) (u : User.t) (v : option string) :
  NoDup (map User.id us) -> In u us ->
  find (fun x => User.id x =? User.id u)
       (map (fun x => if User.id x =? User.id u
                      then User.mk (User.id x) (User.email x) v else x) us)
  = Some (User.mk (User.id u) (User.email u) v).
Proof.
  induction us as [| x r IH]; simpl; intros Hnd Hin; [contradiction | ].
  inversion Hnd as [| ? ? Hx Hr]; subst.
  destruct (User.id x =? User.id u) eqn:E.
  - simpl. rewrite E. apply Z.eqb_eq in E.
    destruct Hin as [-> | Hin]; [reflexivity | ].
    exfalso. apply Hx. rewrite E. apply in_map. exact Hin.
  - rewrite E. destruct Hin as [-> | Hin].
    + rewrite Z.eqb_refl in E. discriminate.
    + apply IH; assumption.
Qed.

(** A lookup by primary key finds the same account, with the same email,
    after any request. *)
Lemma find_id_map (g : User.t -> User.t) (i : Z) (us : list User.t) :
  (forall x, User.id (g x) = User.id x) ->
  find (fun x => User.id x =? i) (map g us)
  = option_map g (find (fun x => User.id x =? i) us).
Proof.
  intros Hg. induction us as [| x r IH]; simpl; [reflexivity | ].
  rewrite Hg. destruct (User.id x =? i); [reflexivity | exact IH].
Qed.

Lemma find_app_found {A : Type} (p : A -> bool) (l l' : list A) (x : A) :
  find p l = Some x -> find p (l ++ l') = Some x.
Proof.
  induction l as [| y r IH]; simpl; [discriminate | ].
  destruct (p y); [auto | exact IH].
Qed.

Lemma set_current_otp_load_user (i j : Z) (v : option string)
    (db : Database H) (u : User.t) :
  load_user i db = Some u ->
  exists u', load_user i (set_current_otp j v db) = Some u'
             /\ User.id u' = User.id u /\ User.email u' = User.email u.
Proof.
  unfold load_user, User_get, set_current_otp. cbn [users]. intros Hf.
  rewrite find_id_map by (intros x; destruct (User.id x =? j); reflexivity).
  rewrite Hf. cbn [option_map]. eexists. split; [reflexivity | ].
  destruct (User.id u =? j); split; reflexivity.
Qed.

Lemma handle_load_user (env : Env) (req : Request H) (sess : Session)
    (db : Database H) (i : Z) (u : User.t) :
  load_user i db = Some u ->
  exists u', load_user i (db_after (handle env req sess db)) = Some u'
             /\ User.id u' = User.id u /\ User.email u' = User.email u.
Proof.
  intros Hu.
  assert (Hsame : users (db_after (handle env req sess db)) = users db ->
            exists u', load_user i (db_after (handle env req sess db))
                       = Some u'
                       /\ User.id u' = User.id u
                       /\ User.email u' = User.email u).
  { intros Heq. exists u. unfold load_user, User_get in *. rewrite Heq.
    auto. }
  destruct req as [[|] e | [|] otp | m subject hours | | id |];
    try (apply Hsame; apply handle_users_unchanged; exact I).
  - cbn [handle].
    destruct (User_filter_by_email (Some e) db) as [u0 |] eqn:Hf.
    + rewrite (login_post_existing e env sess db u0 Hf).
      apply set_current_otp_load_user. exact Hu.
    + rewrite (login_post_new e env sess db Hf).
      apply set_current_otp_load_user.
      unfold load_user, User_get in *. cbn [users].
      apply find_app_found. exact Hu.
  - cbn [handle]. rewrite verify_post_db.
    destruct (User_filter_by_email _ _) as [user |]; [ | eauto].
    destruct (otp_eqb _ _); [ | eauto].
    apply set_current_otp_load_user. exact Hu.
Qed.
End LoginFacts.

(** X9: logout by a logged-in client clears the login of its cookie and
    nothing else: the database and the pending email are kept, and with the
    resulting cookie every protected route is answered by the redirection
    to the login view, in any later database. *)
Theorem logout_ends_the_login
    (H : Type) (N : Number H) (sess : Session) (db : Database H)
    (A : User.t) :
  current_user sess db = Some A ->
  logout sess db
  = mkResult (Redirect "login") []
             (mkSession (pending_email sess) None (flashes sess)) db
  /\ forall env (req : Request H) (db2 : Database H),
       match req with
       | ReqLogin _ _ | ReqVerify _ _ => True
       | _ =>
           response (handle env req (session_after (logout sess db)) db2)
           = Unauthorized
           /\ db_after (handle env req (session_after (logout sess db)) db2)
              = db2
       end.
Proof.
  intros Hcu.
  assert (Hout : logout sess db
                 = mkResult (Redirect "login") []
                     (mkSession (pending_email sess) None (flashes sess)) db).
  { unfold logout, login_required. rewrite Hcu. reflexivity. }
  split; [exact Hout | ].
  intros env req db2. rewrite Hout. cbn [session_after].
  destruct req; cbn [handle]; try exact I;
    unfold index, stats, delete, logout, login_required, current_user;
    cbn [logged_in]; split; reflexivity.
Qed.

Lemma logout_ends_the_login_witness :
  logged_in (session_after (logout Scenario.alice_session Scenario.db))
  = None
  /\ response (handle (Scenario.clock 738888 8 0) (ReqDelete 1)
                 (session_after (logout Scenario.alice_session Scenario.db))
                 Scenario.db)
     = Unauthorized.
Proof.
  destruct (logout_ends_the_login float float_Number Scenario.alice_session
              Scenario.db Scenario.alice_user eq_refl) as [Hout Hafter].
  split.
  - rewrite Hout. reflexivity.
  - apply (Hafter (Scenario.clock 738888 8 0) (ReqDelete 1) Scenario.db).
Defined.

(** X10: the code that a login attempt for an email prints is the one that
    verifies: submitting it with the cookie the login answered logs the
    client in as the account of that email, whether the account existed or
    was just created; the code is then null, and the same code submitted
    once more is rejected. *)
Theorem login_then_verify_logs_in
    (H : Type) (N : Number H) (e : string) (env : Env) (sess : Session)
    (db : Database H) :
  NoDup (map User.id (users db)) ->
  exists (c : string) (u : User.t),
    response (login POST e env sess db) = Redirect "verify"
    /\ printed (login POST e env sess db)
       = [ "------------------------------------------";
           "EMAIL SENT TO " ++ e ++ ": YOUR OTP IS " ++ c;
           "------------------------------------------" ]%string
    /\ response (verify POST c (session_after (login POST e env sess db))
                        (db_after (login POST e env sess db)))
       = Redirect "index"
    /\ current_user
         (session_after
            (verify POST c (session_after (login POST e env sess db))
                    (db_after (login POST e env sess db))))
         (db_after
            (verify POST c (session_after (login POST e env sess db))
                    (db_after (login POST e env sess db))))
       = Some u
    /\ User.email u = e
    /\ User.current_otp u = None
    /\ response
         (verify POST c
            (session_after
               (verify POST c (session_after (login POST e env sess db))
                       (db_after (login POST e env sess db))))
            (db_after
               (verify POST c (session_after (login POST e env sess db))
                       (db_after (login POST e env sess db)))))
       = RenderVerify.
Proof.
  intros Hpk.
  set (c := str (randint 100000 999999 (entropy env))).
  set (i := match User_filter_by_email (Some e) db with
            | Some u => User.id u
            | None => next_id (map User.id (users db))
            end).
  pose proof (login_post_stored_otp e env sess db) as Hstored.
  fold c i in Hstored.
  assert (Hpk1 : NoDup (map User.id
                          (users (db_after (login POST e env sess db))))).
  { apply (handle_user_ids_NoDup env (ReqLogin POST e) sess db Hpk). }
  assert (Hsess : session_after (login POST e env sess db)
                  = mkSession (Some e) (logged_in sess) (flashes sess)).
  { unfold login. destruct (User_filter_by_email (Some e) db);
      [reflexivity | ]. destruct (add_user e db). reflexivity. }
  assert (Hresp : response (login POST e env sess db) = Redirect "verify"
                  /\ printed (login POST e env sess db)
                     = [ "------------------------------------------";
                         "EMAIL SENT TO " ++ e ++ ": YOUR OTP IS " ++ c;
                         "------------------------------------------" ]%string).
  { unfold login. destruct (User_filter_by_email (Some e) db);
      [split; reflexivity | ]. destruct (add_user e db). split; reflexivity. }
  set (db1 := db_after (login POST e env sess db)) in *.
  exists c, (User.mk i e None). rewrite Hsess.
  assert (Hv : verify POST c (mkSession (Some e) (logged_in sess)
                                        (flashes sess)) db1
               = mkResult (Redirect "index") []
                   (mkSession (Some e) (Some i) (flashes sess))
                   (set_current_otp i None db1)).
  { unfold verify. cbn [pending_email]. rewrite Hstored.
    cbn [User.current_otp otp_eqb User.id]. rewrite String.eqb_refl.
    reflexivity. }
  rewrite Hv. cbn [response session_after db_after].
  assert (Hin : In (User.mk i e (Some c)) (users db1)).
  { apply (find_email_In e (users db1)). exact Hstored. }
  split; [apply Hresp | split; [apply Hresp | split; [reflexivity | ]]].
  split; [ | split; [reflexivity | split; [reflexivity | ]]].
  - unfold current_user, load_user, User_get, set_current_otp.
    cbn [logged_in users].
    apply (find_id_set_same (users db1) (User.mk i e (Some c)) None Hpk1 Hin).
  - unfold verify. cbn [pending_email].
    unfold User_filter_by_email, set_current_otp in *. cbn [users].
    pose proof (find_email_set_same e (users db1) (User.mk i e (Some c))
                  None Hstored) as Hnull.
    cbn [User.id User.email] in Hnull. rewrite Hnull. reflexivity.
Qed.

Lemma login_then_verify_logs_in_witness :
  exists (c : string) (u : User.t),
    printed (login POST "frank@example.com" (Scenario.clock 738888 8 5)
                   new_session Scenario.db)
    = [ "------------------------------------------";
        "EMAIL SENT TO frank@example.com: YOUR OTP IS " ++ c;
        "------------------------------------------" ]%string
    /\ current_user
         (session_after
            (verify POST c
               (session_after (login POST "frank@example.com"
                                 (Scenario.clock 738888 8 5) new_session
                                 Scenario.db))
               (db_after (login POST "frank@example.com"
                            (Scenario.clock 738888 8 5) new_session
                            Scenario.db))))
         (db_after
            (verify POST c
               (session_after (login POST "frank@example.com"
                                 (Scenario.clock 738888 8 5) new_session
                                 Scenario.db))
               (db_after (login POST "frank@example.com"
                            (Scenario.clock 738888 8 5) new_session
                            Scenario.db))))
       = Some u
    /\ User.email u = "frank@example.com".
Proof.
  assert (Hpk : NoDup (map User.id (users Scenario.db))).
  { vm_compute. repeat constructor; simpl; intuition discriminate. }
  destruct (login_then_verify_logs_in float float_Number "frank@example.com"
              (Scenario.clock 738888 8 5) new_session Scenario.db Hpk)
    as (c & u & _ & Hprinted & _ & Hcu & Hemail & _ & _).
  exists c, u. split; [exact Hprinted | split; [exact Hcu | exact Hemail]].
Defined.

(** X11: accounts are never removed or renamed, so a client stays logged in
    as the same account whatever requests are served in between, as long as
    its cookie is at most 31 days old: after any trace, the cookie still
    resolves to an account with the same primary key and email.  A cookie
    older than 31 days is dropped: the client is anonymous again. *)
Theorem login_survives_other_requests
    (H : Type) (N : Number H) (trace : list (Env * Request H * Session))
    (env : Env) (c : Cookie) (db : Database H) (A : User.t) :
  current_user (payload c) db = Some A ->
  (0 <= timestamp env - signed_at c <= permanent_session_lifetime ->
   exists A',
     current_user (open_session env (Some c)) (run_db trace db) = Some A'
     /\ User.id A' = User.id A
     /\ User.email A' = User.email A)
  /\ (permanent_session_lifetime < timestamp env - signed_at c ->
      current_user (open_session env (Some c)) (run_db trace db) = None).
Proof.
  intros Hcu. split; intros Hage.
  - rewrite open_session_fresh by exact Hage.
    unfold current_user in *.
    destruct (logged_in (payload c)) as [i |]; [ | discriminate].
    clear Hage. revert db A Hcu.
    induction trace as [| [[env' req] s] rest IH]; intros db A Hcu.
    + exists A. auto.
    + rewrite run_db_cons.
      destruct (handle_load_user env' req s db i A Hcu)
        as (A1 & H1 & Hid & Hem).
      destruct (IH _ A1 H1) as (A' & H' & Hid' & Hem').
      exists A'. split; [exact H' | split; congruence].
  - rewrite open_session_expired by exact Hage. reflexivity.
Qed.

Lemma login_survives_other_requests_witness :
  (exists A',
     current_user
       (open_session (Scenario.clock 738907 12 0)
          (Some (mkCookie Scenario.alice_session
                          (timestamp (Scenario.clock 738886 9 0)))))
       (run_db Scenario.other_requests Scenario.db) = Some A'
     /\ User.id A' = 1
     /\ User.email A' = Scenario.alice)
  /\ current_user
       (open_session (Scenario.clock 738918 12 0)
          (Some (mkCookie Scenario.alice_session
                          (timestamp (Scenario.clock 738886 9 0)))))
       (run_db Scenario.other_requests Scenario.db) = None.
Proof.
  split.
  - apply (login_survives_other_requests float float_Number
             Scenario.other_requests (Scenario.clock 738907 12 0)
             (mkCookie Scenario.alice_session
                       (timestamp (Scenario.clock 738886 9 0)))
             Scenario.db Scenario.alice_user);
      [reflexivity | vm_compute; split; discriminate].
  - apply (login_survives_other_requests float float_Number
             Scenario.other_requests (Scenario.clock 738918 12 0)
             (mkCookie Scenario.alice_session
                       (timestamp (Scenario.clock 738886 9 0)))
             Scenario.db Scenario.alice_user);
      [reflexivity | vm_compute; reflexivity].
Defined.

(** ** The statistics page *)

(** X12: the stats operation never fails on a bucket index and writes
    nothing: whatever the database holds, the response is not an error, the
    database is unchanged and nothing is printed; a logged-in client gets
    seven daily values, four weekly values and as many subject labels as
    subject values, and keeps its cookie. *)
Theorem stats_never_fails_and_writes_nothing
    (H : Type) (N : Number H) (env : Env) (sess : Session)
    (db : Database H) :
  response (stats env sess db) <> InternalError
  /\ db_after (stats env sess db) = db
  /\ printed (stats env sess db) = []
  /\ (forall user,
        current_user sess db = Some user ->
        session_after (stats env sess db) = sess
        /\ exists dv wr wv sl sv,
             response (stats env sess db)
             = RenderStats user
                 ["Mon"; "Tue"; "Wed"; "Thu"; "Fri"; "Sat"; "Sun"]%string
                 dv wr wv sl sv
             /\ List.length dv = 7%nat
             /\ List.length wr = 4%nat
             /\ List.length wv = 4%nat
             /\ List.length sl = List.length sv).
Proof.
  destruct (current_user sess db) as [user |] eqn:Hcu.
  - destruct (stats_renders env sess db user Hcu) as (dv & _ & Hlen & ->).
    cbn [response db_after printed session_after].
    split; [discriminate | split; [reflexivity | split; [reflexivity | ]]].
    intros user' [= <-]. split; [reflexivity | ].
    exists dv. do 4 eexists. split; [reflexivity | ].
    split; [exact Hlen | split; [reflexivity | split; [reflexivity | ]]].
    rewrite !length_map. reflexivity.
  - unfold stats, login_required. rewrite Hcu.
    cbn [response db_after printed].
    split; [discriminate | split; [reflexivity | split; [reflexivity | ]]].
    intros user' [=].
Qed.

(** X13: bucket k of the daily chart holds the left-to-right sum, in table
    order, of the hours of the rows the account owns that are dated on or
    after the Monday of the current week and fall on weekday k. *)
Theorem daily_bucket_holds_its_weekday
    (H : Type) (N : Number H) (user : User.t) (env : Env)
    (db : Database H) :
  exists dv,
    daily_values user env db = Some dv
    /\ List.length dv = 7%nat
    /\ (forall k,
          nth k dv zero
          = sum (map StudySession.hours
                   (filter (fun s => datetime.weekday
                                       (datetime.date (StudySession.date s))
                                     =? Z.of_nat k)
                           (current_week_sessions user env db))))
    /\ (forall s,
          In s (current_week_sessions user env db)
          <-> In s (study_sessions db)
              /\ StudySession.user_id s = User.id user
              /\ start_of_week env <= datetime.date (StudySession.date s)).
Proof.
  destruct (daily_values_total user env db) as (dv & Hdv & Hlen).
  exists dv. split; [exact Hdv | split; [exact Hlen | split]].
  - intros k. apply daily_values_bucket. exact Hdv.
  - intros s. unfold current_week_sessions.
    rewrite filter_In, andb_true_iff, midnight_le_iff, Z.eqb_eq, Z.leb_le.
    tauto.
Qed.

(** X14: the four bars of the weekly chart are four consecutive calendar
    weeks, Monday to Sunday, the last one containing today; bar i is the sum
    of the hours of the account's rows dated on a day of week i, up to its
    Sunday 23:59:59.999999, and no row counts for two bars. *)
Theorem weekly_bars_are_calendar_weeks
    (H : Type) (N : Number H) (user : User.t) (env : Env)
    (db : Database H) :
  weekly_values user env db
  = map (fun i => sum (map StudySession.hours (week_records user env i db)))
        [0; 1; 2; 3]
  /\ (forall i, datetime.weekday (week_start env i) = 0
                /\ datetime.weekday (week_end env i) = 6
                /\ week_end env i = week_start env i + 6
                /\ week_start env (i + 1) = week_end env i + 1)
  /\ week_start env 3 <= datetime.date (now env) <= week_end env 3
  /\ (forall s i j,
        In s (week_records user env i db) ->
        In s (week_records user env j db) -> i = j).
Proof.
  split; [ | split; [ | split]].
  - unfold weekly_values. apply map_ext. intros i. f_equal. f_equal.
    unfold week_sessions, week_records. apply filter_ext. intros s.
    rewrite midnight_le_iff, le_combine_max_iff. reflexivity.
  - intros i. pose proof (start_of_week_monday env) as [Hmon _].
    unfold week_end, week_start, datetime.weekday in *.
    Z.to_euclidean_division_equations. lia.
  - pose proof (start_of_week_monday env) as [_ Hin].
    unfold week_end, week_start. lia.
  - intros s i j Hi Hj. unfold week_records in *.
    apply filter_In in Hi. apply filter_In in Hj.
    destruct Hi as [_ Hi], Hj as [_ Hj].
    rewrite !andb_true_iff, !Z.leb_le in Hi, Hj.
    unfold week_end, week_start in *. lia.
Qed.

Lemma stats_never_fails_and_writes_nothing_witness :
  session_after (stats BehindUTC.sunday_evening BehindUTC.session BehindUTC.db)
  = BehindUTC.session
  /\ db_after (stats BehindUTC.sunday_evening BehindUTC.session BehindUTC.db)
     = BehindUTC.db.
Proof.
  destruct (stats_never_fails_and_writes_nothing float float_Number
              BehindUTC.sunday_evening BehindUTC.session BehindUTC.db)
    as (_ & Hdb & _ & Hin).
  split; [ | exact Hdb].
  apply (Hin BehindUTC.erin_user). reflexivity.
Defined.

Lemma weekly_bars_are_calendar_weeks_witness :
  weekly_values WholeHours.carol_user WholeHours.wednesday WholeHours.db
  = [0; 0; 0; 6]%float
  /\ week_start WholeHours.wednesday 3 = 738886
  /\ week_end WholeHours.wednesday 3 = 738892.
Proof.
  destruct (weekly_bars_are_calendar_weeks float float_Number
              WholeHours.carol_user WholeHours.wednesday WholeHours.db)
    as (Hbars & _ & _ & _).
  split; [rewrite Hbars; reflexivity | split; reflexivity].
Defined.

(** X15: when the hours of the account's rows dated in the 28 days that end
    with the Sunday of the current week are on a scale that adds without
    rounding up to a bound (in binary64: whole hours up to 168, quarters of
    an hour up to 24 hours), and their total is within the bound, the four
    bars of the weekly chart add up to
    the hours of those rows. *)
Theorem weekly_bars_total
    (H : Type) (N : Number H) (num : Z -> H) (bound : Z)
    (units : StudySession.t H -> Z) (user : User.t)
    (env : Env) (db : Database H) :
  exact_scale num bound ->
  hours_on_scale num units (four_week_records user env db) ->
  total (map units (four_week_records user env db)) <= bound ->
  sum (weekly_values user env db)
  = sum (map StudySession.hours (four_week_records user env db)).
Proof.
  intros Hscale Hon Hb.
  set (rows := four_week_records user env db) in *.
  set (inweek := fun (i : Z) (s : StudySession.t H) =>
         (StudySession.user_id s =? User.id user)
         && (week_start env i <=? datetime.date (StudySession.date s))
         && (datetime.date (StudySession.date s) <=? week_end env i)).
  assert (Hrange : forall i s, 0 <= i <= 3 -> inweek i s = true ->
            (StudySession.user_id s =? User.id user)
            && (start_of_week env - 21
                <=? datetime.date (StudySession.date s))
            && (datetime.date (StudySession.date s)
                <=? start_of_week env + 6) = true).
  { intros i s Hi. unfold inweek, week_end, week_start.
    rewrite !andb_true_iff, !Z.leb_le. lia. }
  assert (Hweek : forall i, 0 <= i <= 3 ->
            week_sessions user env i db = filter (inweek i) rows).
  { intros i Hi. subst rows. unfold four_week_records.
    rewrite filter_filter_implied by (intros s _; apply Hrange; exact Hi).
    unfold week_sessions. apply filter_ext. intros s. unfold inweek.
    rewrite midnight_le_iff, le_combine_max_iff. reflexivity. }
  assert (Hex : forall i j s, i <> j -> inweek i s = true ->
                              inweek j s = false).
  { intros i j s Hij Hi. destruct (inweek j s) eqn:Hj; [ | reflexivity].
    exfalso. unfold inweek in Hi, Hj.
    rewrite !andb_true_iff, !Z.leb_le in Hi, Hj.
    unfold week_end, week_start in *. lia. }
  assert (Hbar : forall i, 0 <= i <= 3 ->
            sum (map StudySession.hours (week_sessions user env i db))
            = num (total (map units (filter (inweek i) rows)))
            /\ 0 <= total (map units (filter (inweek i) rows))).
  { intros i Hi. rewrite (Hweek i Hi).
    pose proof (total_units_filter num units (inweek i) rows Hon) as Ht.
    split; [ | lia].
    apply (sum_hours_on_scale num bound Hscale units); [ | lia].
    intros s Hs. apply Hon. apply filter_In in Hs. apply Hs. }
  assert (Hall : total (map units rows)
                 = total (map units (filter (inweek 0) rows))
                   + (total (map units (filter (inweek 1) rows))
                      + (total (map units (filter (inweek 2) rows))
                         + total (map units (filter (inweek 3) rows))))).
  { rewrite <- (total_units_disjoint units (inweek 2) (inweek 3))
      by (intros s _; apply Hex; lia).
    rewrite <- (total_units_disjoint units (inweek 1)
                  (fun s => inweek 2 s || inweek 3 s)).
    2:{ intros s _ H1. rewrite (Hex 1 2 s), (Hex 1 3 s) by (lia || exact H1).
        reflexivity. }
    rewrite <- (total_units_disjoint units (inweek 0)
                  (fun s => inweek 1 s || (inweek 2 s || inweek 3 s))).
    2:{ intros s _ H0.
        rewrite (Hex 0 1 s), (Hex 0 2 s), (Hex 0 3 s) by (lia || exact H0).
        reflexivity. }
    rewrite filter_all; [reflexivity | ].
    intros s Hs. subst rows. unfold four_week_records in Hs.
    apply filter_In in Hs. destruct Hs as [_ Hs].
    unfold inweek, week_end, week_start.
    rewrite !andb_true_iff, !Z.leb_le in Hs.
    rewrite !orb_true_iff, !andb_true_iff, !Z.leb_le. lia. }
  destruct (Hbar 0 ltac:(lia)) as [H0 H0'], (Hbar 1 ltac:(lia)) as [H1 H1'],
    (Hbar 2 ltac:(lia)) as [H2 H2'], (Hbar 3 ltac:(lia)) as [H3 H3'].
  unfold weekly_values. cbn [map]. rewrite H0, H1, H2, H3.
  rewrite (sum_hours_on_scale num bound Hscale units rows Hon Hb).
  change [num (total (map units (filter (inweek 0) rows)));
          num (total (map units (filter (inweek 1) rows)));
          num (total (map units (filter (inweek 2) rows)));
          num (total (map units (filter (inweek 3) rows)))]
    with (map num [total (map units (filter (inweek 0) rows));
                   total (map units (filter (inweek 1) rows));
                   total (map units (filter (inweek 2) rows));
                   total (map units (filter (inweek 3) rows))]).
  rewrite (sum_nums num bound Hscale).
  - f_equal. rewrite Hall. cbn. lia.
  - repeat constructor; assumption.
  - rewrite Hall in Hb. cbn. lia.
Qed.

Lemma weekly_bars_total_witness :
  sum (weekly_values WholeHours.carol_user WholeHours.wednesday WholeHours.db)
  = sum (map StudySession.hours
           (four_week_records WholeHours.carol_user WholeHours.wednesday
                              WholeHours.db)).
Proof.
  apply (weekly_bars_total float float_Number whole 168 whole_hours).
  - exact whole_scale.
  - intros s Hin. vm_compute in Hin.
    destruct Hin as [<- | [<- | [<- | []]]]; vm_compute;
      (split; [reflexivity | discriminate]).
  - vm_compute. discriminate.
Defined.

(** X16: when the hours of a logged-in account's rows and the hours it
    submits are on a scale that adds without rounding up to a bound, and the
    new total is within the bound, the total displayed by the index
    operation grows by exactly the submitted hours when the record is added
    (hours the column accepts, a key SQLite can store), and the listing
    grows by one row. *)
Theorem index_total_grows_by_hours
    (H : Type) (N : Number H) (num : Z -> H) (bound : Z)
    (units : StudySession.t H -> Z) (n : Z) (subject : string)
    (env : Env) (sess : Session) (db : Database H) (A : User.t) :
  current_user sess db = Some A ->
  storable (num n) = true ->
  sqlite_integer (next_id (map StudySession.id (study_sessions db))) = true ->
  exact_scale num bound ->
  hours_on_scale num units (all_sessions A db) ->
  0 <= n ->
  total (map units (all_sessions A db)) + n <= bound ->
  exists sessions total_hours sessions' total_hours',
    response (index GET "" None env sess db)
    = RenderIndex sessions total_hours A
    /\ response
         (index GET "" None env
                (session_after (index POST subject (Some (num n)) env sess db))
                (db_after (index POST subject (Some (num n)) env sess db)))
       = RenderIndex sessions' total_hours' A
    /\ total_hours' = add total_hours (num n)
    /\ List.length sessions' = S (List.length sessions).
Proof.
  intros Hcu Hst Hfits Hscale Hon Hn Hb.
  destruct (index_post_result subject (num n) env sess db A Hcu Hst Hfits)
    as (row & -> & Hid & _ & Hh & _ & Hown).
  cbn [session_after db_after].
  set (db1 := mkDatabase (users db) (study_sessions db ++ [row])).
  assert (Hcu1 : current_user sess db1 = Some A)
    by (rewrite <- Hcu; apply current_user_same_users; reflexivity).
  assert (Hall1 : all_sessions A db1 = (all_sessions A db ++ [row])%list).
  { unfold all_sessions. subst db1. cbn [study_sessions].
    rewrite filter_app. cbn [filter]. rewrite Hown, Z.eqb_refl.
    reflexivity. }
  set (units' := fun s : StudySession.t H =>
         if StudySession.id s =? StudySession.id row then n else units s).
  assert (Hold : forall s, In s (all_sessions A db) -> units' s = units s).
  { intros s Hs. unfold units'. unfold all_sessions in Hs.
    apply filter_In in Hs. destruct Hs as [Hs _].
    pose proof (study_session_id_below_next db s Hs).
    destruct (Z.eqb_spec (StudySession.id s) (StudySession.id row));
      [lia | reflexivity]. }
  assert (Hnew : units' row = n)
    by (unfold units'; rewrite Z.eqb_refl; reflexivity).
  assert (Hunits : map units' (all_sessions A db)
                   = map units (all_sessions A db))
    by (apply map_ext_in; exact Hold).
  assert (Hon1 : hours_on_scale num units' (all_sessions A db1)).
  { intros s Hs. rewrite Hall1 in Hs. apply in_app_or in Hs.
    destruct Hs as [Hs | [<- | []]].
    - rewrite (Hold s Hs). apply Hon. exact Hs.
    - rewrite Hnew. split; [exact Hh | exact Hn]. }
  assert (Ht1 : total (map units' (all_sessions A db1))
                = total (map units (all_sessions A db)) + n).
  { rewrite Hall1, map_app, total_app, Hunits. cbn [map]. rewrite Hnew.
    cbn. lia. }
  assert (Hperm : Permutation (index_sessions A db) (all_sessions A db))
    by apply order_by_date_desc_perm.
  assert (Hperm1 : Permutation (index_sessions A db1) (all_sessions A db1))
    by apply order_by_date_desc_perm.
  pose proof (total_nonneg _
                (proj2 (hours_on_scale_map num units _ Hon))) as HT0.
  exists (index_sessions A db),
         (sum (map StudySession.hours (index_sessions A db))),
         (index_sessions A db1),
         (sum (map StudySession.hours (index_sessions A db1))).
  split; [ | split; [ | split]].
  - unfold index, login_required. rewrite Hcu. reflexivity.
  - unfold index, login_required. rewrite Hcu1. reflexivity.
  - rewrite (sum_hours_on_scale num bound Hscale units' (index_sessions A db1)).
    + rewrite (sum_hours_on_scale num bound Hscale units
                 (index_sessions A db)).
      * rewrite (total_units_perm units' _ _ Hperm1), Ht1.
        rewrite (total_units_perm units _ _ Hperm).
        symmetry. apply (proj2 Hscale); assumption.
      * intros s Hs. apply Hon, (Permutation_in _ Hperm), Hs.
      * rewrite (total_units_perm units _ _ Hperm). lia.
    + intros s Hs. apply Hon1, (Permutation_in _ Hperm1), Hs.
    + rewrite (total_units_perm units' _ _ Hperm1), Ht1. exact Hb.
  - rewrite (Permutation_length Hperm1), (Permutation_length Hperm), Hall1.
    rewrite length_app. cbn [List.length]. lia.
Qed.

Lemma index_total_grows_by_hours_witness :
  exists sessions total_hours sessions' total_hours',
    response (index GET "" None WholeHours.wednesday WholeHours.session
                    WholeHours.db)
    = RenderIndex sessions total_hours WholeHours.carol_user
    /\ response
         (index GET "" None WholeHours.wednesday
                (session_after (index POST "history" (Some (whole 2))
                                      WholeHours.wednesday
                                      WholeHours.session WholeHours.db))
                (db_after (index POST "history" (Some (whole 2))
                                 WholeHours.wednesday
                                 WholeHours.session WholeHours.db)))
       = RenderIndex sessions' total_hours' WholeHours.carol_user
    /\ total_hours' = add total_hours (whole 2)
    /\ List.length sessions' = S (List.length sessions).
Proof.
  apply (index_total_grows_by_hours float float_Number whole 168 whole_hours 2
           "history" WholeHours.wednesday WholeHours.session WholeHours.db
           WholeHours.carol_user).
  - reflexivity.
  - reflexivity.
  - reflexivity.
  - exact whole_scale.
  - intros s Hin. vm_compute in Hin.
    destruct Hin as [<- | [<- | [<- | []]]]; vm_compute;
      (split; [reflexivity | discriminate]).
  - lia.
  - vm_compute. discriminate.
Defined.

(** X17: a new login attempt for an email, by any client, replaces the code
    issued before: unless the new draw gives the same code again, the
    earlier code is rejected afterwards and the client stays logged out of
    that account. *)
Theorem new_login_replaces_old_code
    (H : Type) (N : Number H) (E old_code : string) (env : Env)
    (other sess : Session) (db : Database H) :
  pending_email sess = Some E ->
  old_code <> str (randint 100000 999999 (entropy env)) ->
  verify POST old_code sess (db_after (login POST E env other db))
  = mkResult RenderVerify []
             (flash "Invalid OTP. Please try again." sess)
             (db_after (login POST E env other db)).
Proof.
  intros Hp Hneq.
  apply (verify_wrong_code sess _ E _ old_code Hp
           (login_post_stored_otp E env other db)).
  cbn [User.current_otp otp_eqb]. apply String.eqb_neq. congruence.
Qed.

Lemma new_login_replaces_old_code_witness :
  verify POST "123456" (fst Scenario.alice_pending)
         (db_after (login POST Scenario.alice (Scenario.clock 738887 7 99)
                          new_session (snd Scenario.alice_pending)))
  = mkResult RenderVerify []
      (flash "Invalid OTP. Please try again." (fst Scenario.alice_pending))
      (db_after (login POST Scenario.alice (Scenario.clock 738887 7 99)
                       new_session (snd Scenario.alice_pending))).
Proof.
  apply (new_login_replaces_old_code float float_Number Scenario.alice
           "123456" (Scenario.clock 738887 7 99) new_session
           (fst Scenario.alice_pending) (snd Scenario.alice_pending)).
  - reflexivity.
  - vm_compute. discriminate.
Defined.
